(** * doku-payment-gateway: signing, verification and the retrying transport

    A shallow embedding of [src/utils/signature.ts], [src/schema.ts] and
    [src/DokuClient.ts], and the properties of the signing protocol, of the
    webhook verifier, of [fetchWithRetry] and of [createPayment].

    Conventions.
    - A JavaScript string is a [string]: the bytes of its UTF-8 encoding.
      The strings the client handles (ids, timestamps, paths, JSON text)
      are well-formed Unicode, where equality, emptiness and concatenation
      agree with their UTF-16 counterparts; [slice] is only applied to a
      UUID, which is ASCII. A string with a lone surrogate has no UTF-8
      encoding: it is written with the surrogate as the three bytes of its
      code point ([ED], then [A0] to [BF], then [80] to [BF]), which no
      UTF-8 text contains. The hash functions of crypto-js throw on such a
      string; the module [Throwing] has the signing and verifying
      functions with that.
    - A JavaScript number is an IEEE-754 binary64 value, [spec_float].
    - An [async] function is a function of the [World] that returns how its
      promise settles together with the world it leaves behind. *)

From Stdlib Require Import ZArith NArith List String Ascii Bool Lia.
From Stdlib Require Import Strings.Byte DecimalString.
From Stdlib Require Import Floats.SpecFloat.
Import ListNotations.
Set Warnings "-register-all".
Local Open Scope string_scope.
Local Open Scope list_scope.
Local Open Scope Z_scope.

(* ===================================================================== *)
(** ** JavaScript values *)
(* ===================================================================== *)

Module JS.

(** [number]: binary64, precision 53 and maximal exponent 1024. *)
Definition number := spec_float.
Definition prec : Z := 53.
Definition emax : Z := 1024.

Definition number_of_Z (z : Z) : number := binary_normalize prec emax z 0 false.
Definition zero : number := S754_zero false.

(** [0 < x]; false on NaN. *)
Definition positive (x : number) : bool := SFltb zero x.

(** ToBoolean on a number: every number but [+0], [-0] and [NaN]. *)
Definition truthy_number (x : number) : bool :=
  match x with
  | S754_zero _ | S754_nan => false
  | S754_infinity _ | S754_finite _ _ _ => true
  end.

(** The values [JSON.parse] produces. An object keeps its members in
    order, each key once. *)
Inductive Json : Type :=
| JNull
| JBool (b : bool)
| JNum (n : number)
| JStr (s : string)
| JArr (items : list Json)
| JObj (members : list (string * Json)).

(** A value that may be [undefined] ([None]). *)
Definition JsValue := option Json.

Definition truthy_json (j : Json) : bool :=
  match j with
  | JNull => false
  | JBool b => b
  | JNum n => truthy_number n
  | JStr s => negb (s =? "")%string
  | JArr _ | JObj _ => true
  end.

Definition truthy (v : JsValue) : bool :=
  match v with
  | None => false
  | Some j => truthy_json j
  end.

(** [a || b] *)
Definition or_else (a b : JsValue) : JsValue := if truthy a then a else b.

Fixpoint lookup (k : string) (ms : list (string * Json)) : JsValue :=
  match ms with
  | [] => None
  | (k', v) :: rest => if (k =? k')%string then Some v else lookup k rest
  end.

(** [j.k] on a value that is neither [null] nor [undefined], for the
    member names the client reads ([response], [payment], [url], [order],
    [invoice_number], [amount], [error], [message]): none of them is a
    property of a boolean, number, string or array. *)
Definition member (j : Json) (k : string) : JsValue :=
  match j with
  | JObj ms => lookup k ms
  | _ => None
  end.

(** [v?.k] *)
Definition opt_member (v : JsValue) (k : string) : JsValue :=
  match v with
  | None | Some JNull => None
  | Some j => member j k
  end.

(** [s.slice(0, n)] *)
Definition slice0 (n : nat) (s : string) : string := substring 0 n s.

(** ToBoolean on a string that may be absent. *)
Definition truthy_string (s : option string) : bool :=
  match s with
  | None => false
  | Some s => negb (s =? "")%string
  end.

End JS.
Import JS.

(* ===================================================================== *)
(** ** The crypto-js library *)
(* ===================================================================== *)

(** What [signature.ts] uses of crypto-js. A [WordArray] is the byte
    sequence it stands for. *)
Definition WordArray := list byte.

Class CryptoJS : Type := {
  (** [CryptoJS.SHA256(message)] *)
  SHA256 : string -> WordArray;
  (** [CryptoJS.HmacSHA256(message, key)] *)
  HmacSHA256 : string -> string -> WordArray;
  (** [CryptoJS.enc.Base64.stringify(wordArray)] *)
  Base64_stringify : WordArray -> string
}.

(** The library itself is not part of the repository. [Reference] gives the
    functions it implements: SHA-256 (FIPS 180-4), HMAC (RFC 2104) and
    Base64 (RFC 4648), on the UTF-8 bytes of the strings. *)
Module Reference.

Definition wrap32 (x : Z) : Z := x mod 4294967296.
Definition add32 (x y : Z) : Z := wrap32 (x + y).
Definition rotr (n x : Z) : Z :=
  Z.lor (Z.shiftr x n) (wrap32 (Z.shiftl x (32 - n))).
Definition lnot32 (x : Z) : Z := 4294967295 - x.

Definition Ch (x y z : Z) : Z := Z.lxor (Z.land x y) (Z.land (lnot32 x) z).
Definition Maj (x y z : Z) : Z :=
  Z.lxor (Z.lxor (Z.land x y) (Z.land x z)) (Z.land y z).
Definition bigsigma0 (x : Z) : Z :=
  Z.lxor (Z.lxor (rotr 2 x) (rotr 13 x)) (rotr 22 x).
Definition bigsigma1 (x : Z) : Z :=
  Z.lxor (Z.lxor (rotr 6 x) (rotr 11 x)) (rotr 25 x).
Definition smallsigma0 (x : Z) : Z :=
  Z.lxor (Z.lxor (rotr 7 x) (rotr 18 x)) (Z.shiftr x 3).
Definition smallsigma1 (x : Z) : Z :=
  Z.lxor (Z.lxor (rotr 17 x) (rotr 19 x)) (Z.shiftr x 10).

(** The first 32 bits of the fractional parts of the cube roots of the
    first 64 primes. *)
Definition round_constants : list Z :=
[ 1116352408; 1899447441; 3049323471; 3921009573;
  961987163; 1508970993; 2453635748; 2870763221;
  3624381080; 310598401; 607225278; 1426881987;
  1925078388; 2162078206; 2614888103; 3248222580;
  3835390401; 4022224774; 264347078; 604807628;
  770255983; 1249150122; 1555081692; 1996064986;
  2554220882; 2821834349; 2952996808; 3210313671;
  3336571891; 3584528711; 113926993; 338241895;
  666307205; 773529912; 1294757372; 1396182291;
  1695183700; 1986661051; 2177026350; 2456956037;
  2730485921; 2820302411; 3259730800; 3345764771;
  3516065817; 3600352804; 4094571909; 275423344;
  430227734; 506948616; 659060556; 883997877;
  958139571; 1322822218; 1537002063; 1747873779;
  1955562222; 2024104815; 2227730452; 2361852424;
  2428436474; 2756734187; 3204031479; 3329325298 ].

(** The eight words of a hash value, and of the working variables. *)
Record Hash : Type := mkHash {
  h0 : Z; h1 : Z; h2 : Z; h3 : Z; h4 : Z; h5 : Z; h6 : Z; h7 : Z
}.

(** The first 32 bits of the fractional parts of the square roots of the
    first 8 primes. *)
Definition initial_hash : Hash :=
  mkHash 1779033703 3144134277 1013904242 2773480762
         1359893119 2600822924 528734635 1541459225.

(** Padding: the bit 1, zeros up to 56 modulo 64 bytes, then the length
    in bits as a 64-bit big-endian integer. *)
Definition be_bytes (n : nat) (x : Z) : list Z :=
  map (fun i => Z.shiftr x (8 * Z.of_nat i) mod 256) (rev (seq 0 n)).

Definition pad (msg : list Z) : list Z :=
  let len := Z.of_nat (List.length msg) in
  msg ++ [128] ++ repeat 0 (Z.to_nat ((55 - len) mod 64)) ++ be_bytes 8 (8 * len).

Fixpoint words_of_bytes (bs : list Z) : list Z :=
  match bs with
  | a :: b :: c :: d :: rest =>
      (((a * 256 + b) * 256 + c) * 256 + d) :: words_of_bytes rest
  | _ => []
  end.

Fixpoint blocks_of_words (n : nat) (ws : list Z) : list (list Z) :=
  match n with
  | O => []
  | S n' => firstn 16 ws :: blocks_of_words n' (skipn 16 ws)
  end.

(** The message schedule, latest word first while it is built. *)
Fixpoint extend_schedule (n : nat) (rev_w : list Z) : list Z :=
  match n with
  | O => rev_w
  | S n' =>
      let wt := add32 (add32 (add32 (smallsigma1 (nth 1 rev_w 0)) (nth 6 rev_w 0))
                             (smallsigma0 (nth 14 rev_w 0)))
                      (nth 15 rev_w 0) in
      extend_schedule n' (wt :: rev_w)
  end.

Definition schedule (block : list Z) : list Z :=
  rev (extend_schedule 48 (rev block)).

Definition round (v : Hash) (kw : Z * Z) : Hash :=
  let t1 := add32 (add32 (add32 (add32 (h7 v) (bigsigma1 (h4 v)))
                                (Ch (h4 v) (h5 v) (h6 v)))
                         (fst kw))
                  (snd kw) in
  let t2 := add32 (bigsigma0 (h0 v)) (Maj (h0 v) (h1 v) (h2 v)) in
  mkHash (add32 t1 t2) (h0 v) (h1 v) (h2 v) (add32 (h3 v) t1) (h4 v) (h5 v) (h6 v).

Definition compress (H : Hash) (block : list Z) : Hash :=
  let v := fold_left round (combine round_constants (schedule block)) H in
  mkHash (add32 (h0 H) (h0 v)) (add32 (h1 H) (h1 v))
         (add32 (h2 H) (h2 v)) (add32 (h3 H) (h3 v))
         (add32 (h4 H) (h4 v)) (add32 (h5 H) (h5 v))
         (add32 (h6 H) (h6 v)) (add32 (h7 H) (h7 v)).

Definition byte_of_Z (z : Z) : byte :=
  match Byte.of_N (Z.to_N (z mod 256)) with
  | Some b => b
  | None => x00
  end.

Definition Z_of_byte (b : byte) : Z := Z.of_N (Byte.to_N b).

Definition word_bytes (x : Z) : list byte :=
  [ byte_of_Z (Z.shiftr x 24); byte_of_Z (Z.shiftr x 16);
    byte_of_Z (Z.shiftr x 8); byte_of_Z x ].

Definition hash_bytes (H : Hash) : list byte :=
  word_bytes (h0 H) ++ word_bytes (h1 H) ++ word_bytes (h2 H) ++ word_bytes (h3 H) ++
  word_bytes (h4 H) ++ word_bytes (h5 H) ++ word_bytes (h6 H) ++ word_bytes (h7 H).

Definition sha256 (msg : list byte) : list byte :=
  let padded := pad (map Z_of_byte msg) in
  let ws := words_of_bytes padded in
  hash_bytes (fold_left compress (blocks_of_words (List.length padded / 64) ws) initial_hash).

(** HMAC with a 64-byte block: a longer key is hashed first. *)
Definition hmac_key (key : list byte) : list byte :=
  let k := if Nat.ltb 64 (List.length key) then sha256 key else key in
  k ++ repeat x00 (64 - List.length k).

Definition xor_pad (p : Z) (b : byte) : byte := byte_of_Z (Z.lxor (Z_of_byte b) p).

Definition hmac_sha256 (key msg : list byte) : list byte :=
  let k := hmac_key key in
  sha256 (map (xor_pad 92) k ++ sha256 (map (xor_pad 54) k ++ msg)).

Definition alphabet : string :=
  "ABCDEFGHIJKLMNOPQRSTUVWXYZabcdefghijklmnopqrstuvwxyz0123456789+/".

Definition sextet (x : Z) : ascii :=
  match String.get (Z.to_nat (x mod 64)) alphabet with
  | Some c => c
  | None => "="%char
  end.

Fixpoint base64 (bs : list byte) : string :=
  match bs with
  | [] => ""
  | [a] =>
      let x := Z_of_byte a in
      String (sextet (Z.shiftr x 2)) (String (sextet (Z.shiftl x 4)) "==")
  | [a; b] =>
      let x := Z_of_byte a * 256 + Z_of_byte b in
      String (sextet (Z.shiftr x 10)) (String (sextet (Z.shiftr x 4))
        (String (sextet (Z.shiftl x 2)) "="))
  | a :: b :: c :: rest =>
      let x := (Z_of_byte a * 256 + Z_of_byte b) * 256 + Z_of_byte c in
      String (sextet (Z.shiftr x 18)) (String (sextet (Z.shiftr x 12))
        (String (sextet (Z.shiftr x 6)) (String (sextet x) (base64 rest))))
  end.

Definition utf8 (s : string) : list byte := list_byte_of_string s.

Definition hex_digit (x : Z) : ascii :=
  match String.get (Z.to_nat (x mod 16)) "0123456789abcdef" with
  | Some c => c
  | None => "?"%char
  end.

Fixpoint hex (bs : list byte) : string :=
  match bs with
  | [] => ""
  | b :: rest =>
      String (hex_digit (Z.shiftr (Z_of_byte b) 4))
             (String (hex_digit (Z_of_byte b)) (hex rest))
  end.

(** Every byte, and every byte sequence of a given length. *)
Definition all_bytes : list byte :=
  flat_map (fun n => match Byte.of_N (N.of_nat n) with
                     | Some b => [b]
                     | None => []
                     end)
           (seq 0 256).

Fixpoint byte_lists (n : nat) : list (list byte) :=
  match n with
  | O => [[]]
  | S n' => flat_map (fun l => map (fun b => b :: l) all_bytes) (byte_lists n')
  end.

(** [n] times the character [c]. *)
Fixpoint replicate (n : nat) (c : ascii) : string :=
  match n with
  | O => ""
  | S n' => String c (replicate n' c)
  end.

End Reference.

#[export] Instance crypto_js : CryptoJS := {
  SHA256 message := Reference.sha256 (Reference.utf8 message);
  HmacSHA256 message key :=
    Reference.hmac_sha256 (Reference.utf8 key) (Reference.utf8 message);
  Base64_stringify := Reference.base64
}.

(* ===================================================================== *)
(** ** src/utils/signature.ts *)
(* ===================================================================== *)

(** The line feed, ["\n"]. *)
Definition LF : string := String "010"%char "".

Module Signature.
Section WithCrypto.
Context {crypto : CryptoJS}.

Definition generateDigest (jsonBody : string) : string :=
  let hash := SHA256 jsonBody in
  Base64_stringify hash.

(** The value of the local [componentSignature] when it is signed. *)
Definition componentSignature
    (clientId requestId requestTarget digest requestTimestamp : string) : string :=
  let c := ("Client-Id:" ++ clientId)%string in
  let c := (c ++ LF)%string in
  let c := (c ++ ("Request-Id:" ++ requestId))%string in
  let c := (c ++ LF)%string in
  let c := (c ++ ("Request-Timestamp:" ++ requestTimestamp))%string in
  let c := (c ++ LF)%string in
  let c := (c ++ ("Request-Target:" ++ requestTarget))%string in
  if negb (digest =? "")%string then
    let c := (c ++ LF)%string in
    (c ++ ("Digest:" ++ digest))%string
  else c.

Definition generateSignature
    (clientId requestId requestTarget digest secretKey requestTimestamp : string)
    : string :=
  let hmac256Value :=
    HmacSHA256
      (componentSignature clientId requestId requestTarget digest requestTimestamp)
      secretKey in
  let signature := Base64_stringify hmac256Value in
  ("HMACSHA256=" ++ signature)%string.

End WithCrypto.
End Signature.
Import Signature.

(** The canonical string as the protocol words it: the lines joined by a
    line feed, the [Digest] line present when the digest is not empty. *)
Definition canonical_lines
    (clientId requestId timestamp targetPath digest : string) : list string :=
  [ ("Client-Id:" ++ clientId)%string;
    ("Request-Id:" ++ requestId)%string;
    ("Request-Timestamp:" ++ timestamp)%string;
    ("Request-Target:" ++ targetPath)%string ]
  ++ (if (digest =? "")%string then [] else [("Digest:" ++ digest)%string]).

Definition canonical_string
    (clientId requestId timestamp targetPath digest : string) : string :=
  String.concat LF (canonical_lines clientId requestId timestamp targetPath digest).

(** What follows the [Request-Target] line. *)
Definition digest_line (d : string) : string :=
  if (d =? "")%string then "" else (LF ++ "Digest:" ++ d)%string.

(* ===================================================================== *)
(** ** Exceptions and promises *)
(* ===================================================================== *)

Inductive ZodIssueCode : Type := invalid_type | too_small | invalid_string.

Record ZodIssue : Type := mkIssue {
  issue_code : ZodIssueCode;
  issue_path : string;
  (** the message the schema gives, when it gives one *)
  issue_message : option string
}.

(** What zod decides outside the schema file: the two string formats and
    the text of a [ZodError]'s [message]. *)
Class ZodLib : Type := {
  is_email : string -> bool;
  is_url : string -> bool;
  ZodError_message : list ZodIssue -> string
}.

(** A thrown value. *)
Inductive Thrown : Type :=
| ErrorObject (name message : string)
| ZodError (issues : list ZodIssue)
| ThrownValue (v : JsValue).

(** How an evaluation completes, or a promise settles. *)
Inductive Completion (A : Type) : Type :=
| Normal (a : A)
| Throw (e : Thrown).
Arguments Normal {A} a.
Arguments Throw {A} e.

(** [error?.message] *)
Definition error_message {zod : ZodLib} (error : Thrown) : JsValue :=
  match error with
  | ErrorObject _ m => Some (JStr m)
  | ZodError issues => Some (JStr (ZodError_message issues))
  | ThrownValue v => opt_member v "message"
  end.

(** [j.k], which throws a [TypeError] on [null]. *)
Definition get_member (j : Json) (k : string) : Completion JsValue :=
  match j with
  | JNull => Throw (ErrorObject "TypeError"
               ("Cannot read properties of null (reading '" ++ k ++ "')")%string)
  | _ => Normal (member j k)
  end.

(* ===================================================================== *)
(** ** src/types.ts *)
(* ===================================================================== *)

Record DokuPaymentRequest : Type := {
  orderId : string;
  amount : number;
  customerName : string;
  customerEmail : string;
  customerPhone : string;
  description : option string;
  returnUrl : string;
  expiredTime : option number;
  paymentMethodTypes : option (list string)
}.

(** [details?: any]: the error body of the provider, or the thrown value. *)
Inductive Details : Type :=
| DetailsJson (errorData : Json)
| DetailsThrown (error : Thrown).

Record DokuPaymentResponse : Type := {
  success : bool;
  paymentUrl : JsValue;
  invoiceNumber : JsValue;
  response_amount : JsValue;
  message : JsValue;
  details : option Details
}.

Record DokuConfig : Type := {
  clientId : string;
  secretKey : string;
  isProduction : bool
}.

(* ===================================================================== *)
(** ** src/schema.ts *)
(* ===================================================================== *)

(** The object handed to the constructor, as it is at run time. *)
Record ConfigInput : Type := {
  in_clientId : JsValue;
  in_secretKey : JsValue;
  in_isProduction : JsValue
}.

Module Schema.
Section WithZod.
Context {zod : ZodLib}.

(** [z.string().min(1, msg)] on a value of type string *)
Definition string_min1 (path msg : string) (s : string) : list ZodIssue :=
  if (s =? "")%string then [mkIssue too_small path (Some msg)] else [].

(** [z.number().positive(msg)]: [NaN] is not a number for zod *)
Definition number_positive (path msg : string) (n : number) : list ZodIssue :=
  match n with
  | S754_nan => [mkIssue invalid_type path None]
  | _ => if positive n then [] else [mkIssue too_small path (Some msg)]
  end.

Definition optional {A : Type} (check : A -> list ZodIssue) (v : option A)
    : list ZodIssue :=
  match v with
  | None => []
  | Some a => check a
  end.

Definition PaymentRequestSchema_issues (d : DokuPaymentRequest) : list ZodIssue :=
  string_min1 "orderId" "Order ID is required" (orderId d)
  ++ number_positive "amount" "Amount must be positive" (amount d)
  ++ string_min1 "customerName" "Customer name is required" (customerName d)
  ++ (if is_email (customerEmail d) then []
      else [mkIssue invalid_string "customerEmail" (Some "Invalid email address")])
  ++ string_min1 "customerPhone" "Phone number is required" (customerPhone d)
  ++ (if is_url (returnUrl d) then []
      else [mkIssue invalid_string "returnUrl" (Some "Invalid return URL")])
  ++ optional (number_positive "expiredTime" "Expired time must be positive")
       (expiredTime d).

(** [PaymentRequestSchema.parse(data)] *)
Definition PaymentRequestSchema_parse (d : DokuPaymentRequest)
    : Completion DokuPaymentRequest :=
  match PaymentRequestSchema_issues d with
  | [] => Normal d
  | issues => Throw (ZodError issues)
  end.

(** [z.string().min(1, msg)] on any value *)
Definition any_string_min1 (path msg : string) (v : JsValue) : list ZodIssue :=
  match v with
  | Some (JStr s) => string_min1 path msg s
  | _ => [mkIssue invalid_type path None]
  end.

Definition any_boolean (path : string) (v : JsValue) : list ZodIssue :=
  match v with
  | Some (JBool _) => []
  | _ => [mkIssue invalid_type path None]
  end.

Definition ConfigSchema_issues (c : ConfigInput) : list ZodIssue :=
  any_string_min1 "clientId" "Client ID is required" (in_clientId c)
  ++ any_string_min1 "secretKey" "Secret Key is required" (in_secretKey c)
  ++ any_boolean "isProduction" (in_isProduction c).

(** [ConfigSchema.parse(config)] *)
Definition ConfigSchema_parse (c : ConfigInput) : Completion DokuConfig :=
  match ConfigSchema_issues c, in_clientId c, in_secretKey c, in_isProduction c with
  | [], Some (JStr id), Some (JStr key), Some (JBool prod) =>
      Normal {| clientId := id; secretKey := key; isProduction := prod |}
  | issues, _, _, _ => Throw (ZodError issues)
  end.

End WithZod.
End Schema.
Import Schema.

(* ===================================================================== *)
(** ** The world of an async call *)
(* ===================================================================== *)

Record Headers : Type := {
  h_Content_Type : string;
  h_Client_Id : string;
  h_Request_Id : string;
  h_Request_Timestamp : string;
  h_Signature : string
}.

Record RequestInit : Type := {
  req_method : string;
  req_headers : Headers;
  req_body : string
}.

(** A [Response]: [ok], [status], and how the promise of [json()] settles. *)
Record Response : Type := {
  ok : bool;
  status : Z;
  json : Completion Json
}.


Inductive LogArg : Type :=
| LogString (s : string)
| LogValue (v : JsValue)
| LogThrown (e : Thrown).

(** The transport answers the [i]-th call of [fetch] by [remote i url options]:
    a response, or a rejection (connection error, timeout). The world keeps
    the requests sent so far, adds up the time spent waiting and keeps what
    was logged. *)
Record World : Type := {
  remote : nat -> string -> RequestInit -> Completion Response;
  sent : list (string * RequestInit);
  waited_ms : Z;
  console : list (list LogArg)
}.

(** The number of calls of [fetch] so far. *)
Definition fetch_calls (w : World) : nat := List.length (sent w).

Definition Async (A : Type) : Type := World -> Completion A * World.

Definition ret {A : Type} (a : A) : Async A := fun w => (Normal a, w).

Definition bind {A B : Type} (m : Async A) (k : A -> Async B) : Async B :=
  fun w =>
    match m w with
    | (Normal a, w') => k a w'
    | (Throw e, w') => (Throw e, w')
    end.

(** A synchronous evaluation, or the [await] of a promise already settled. *)
Definition lift {A : Type} (c : Completion A) : Async A := fun w => (c, w).

(** [try { m } catch (error) { handler error }] *)
Definition try_catch {A : Type} (m : Async A) (handler : Thrown -> Async A) : Async A :=
  fun w =>
    match m w with
    | (Normal a, w') => (Normal a, w')
    | (Throw e, w') => handler e w'
    end.

Notation "x <- m ;; k" := (bind m (fun x => k))
  (at level 61, m at next level, right associativity).

(** [await fetch(url, options)] *)
Definition fetch (url : string) (options : RequestInit) : Async Response :=
  fun w =>
    (remote w (fetch_calls w) url options,
     {| remote := remote w; sent := sent w ++ [(url, options)];
        waited_ms := waited_ms w; console := console w |}).

(** [await new Promise((resolve) => setTimeout(resolve, ms))] *)
Definition setTimeout (ms : Z) : Async unit :=
  fun w =>
    (Normal tt,
     {| remote := remote w; sent := sent w;
        waited_ms := waited_ms w + ms; console := console w |}).

(** [console.error(...args)] *)
Definition console_error (args : list LogArg) : Async unit :=
  fun w =>
    (Normal tt,
     {| remote := remote w; sent := sent w;
        waited_ms := waited_ms w; console := console w ++ [args] |}).

(* ===================================================================== *)
(** ** src/DokuClient.ts *)
(* ===================================================================== *)

Record Order : Type := {
  order_amount : number;
  invoice_number : string;
  currency : string;
  callback_url : string
}.

Record Payment : Type := {
  payment_due_date : number;
  payment_method_types : list string
}.

Record Customer : Type := {
  customer_id : string;
  customer_name : string;
  customer_phone : string;
  country : string
}.

Record RequestBody : Type := {
  order : Order;
  payment : Payment;
  customer : Customer
}.

(** [JSON.stringify(requestBody)] *)
Class JSONText : Type := {
  JSON_stringify : RequestBody -> string
}.

(** The four header values of a notification; [None] is a header the
    caller does not have ([undefined] or [null]). *)
Record InboundHeaders : Type := {
  signature : option string;
  timestamp : option string;
  requestId : option string;
  inbound_clientId : option string
}.

Record DokuClient : Type := {
  config : DokuConfig;
  baseUrl : string
}.

Module Client.
Section WithLibraries.
Context {crypto : CryptoJS} {zod : ZodLib} {jsontext : JSONText}.

Definition constructor (cfg : ConfigInput) : Completion DokuClient :=
  match ConfigSchema_parse cfg with
  | Throw e => Throw e
  | Normal validatedConfig =>
      Normal {| config := validatedConfig;
                baseUrl := if truthy (in_isProduction cfg)
                           then "https://api.doku.com"
                           else "https://api-sandbox.doku.com" |}
  end.

Definition generateHeaders (self : DokuClient)
    (requestId requestTimestamp requestTarget body : string) : Headers :=
  let digest := generateDigest body in
  let signature :=
    generateSignature (clientId (config self)) requestId requestTarget digest
      (secretKey (config self)) requestTimestamp in
  {| h_Content_Type := "application/json";
     h_Client_Id := clientId (config self);
     h_Request_Id := requestId;
     h_Request_Timestamp := requestTimestamp;
     h_Signature := signature |}.

Definition defaultPaymentMethods : list string :=
  [ "VIRTUAL_ACCOUNT_BCA";
    "VIRTUAL_ACCOUNT_BANK_MANDIRI";
    "VIRTUAL_ACCOUNT_BANK_SYARIAH_MANDIRI";
    "VIRTUAL_ACCOUNT_DOKU";
    "VIRTUAL_ACCOUNT_BRI";
    "VIRTUAL_ACCOUNT_BNI";
    "VIRTUAL_ACCOUNT_BANK_PERMATA";
    "VIRTUAL_ACCOUNT_BANK_CIMB";
    "VIRTUAL_ACCOUNT_BANK_DANAMON";
    "ONLINE_TO_OFFLINE_ALFA";
    "CREDIT_CARD";
    "DIRECT_DEBIT_BRI";
    "EMONEY_SHOPEEPAY";
    "EMONEY_OVO";
    "QRIS";
    "PEER_TO_PEER_AKULAKU";
    "PEER_TO_PEER_KREDIVO";
    "PEER_TO_PEER_INDODANA" ].

(** The local [requestBody] of [createPayment]. [expiredTime] is read from
    the caller's [paymentData], the rest from [validatedData]. *)
Definition requestBody (paymentData validatedData : DokuPaymentRequest)
    (requestId : string) : RequestBody :=
  let expiredTime :=
    match expiredTime paymentData with
    | Some n => if truthy_number n then n else number_of_Z 60
    | None => number_of_Z 60
    end in
  {| order :=
       {| order_amount := amount validatedData;
          invoice_number := orderId validatedData;
          currency := "IDR";
          callback_url := returnUrl validatedData |};
     payment :=
       {| payment_due_date := expiredTime;
          payment_method_types :=
            match paymentMethodTypes validatedData with
            | Some types => types
            | None => defaultPaymentMethods
            end |};
     customer :=
       {| customer_id :=
            if negb (customerEmail validatedData =? "")%string
            then customerEmail validatedData
            else ("GUEST-" ++ slice0 8 requestId)%string;
          customer_name := customerName validatedData;
          customer_phone := customerPhone validatedData;
          country := "ID" |} |}.

(** [retries > 0] is the case [S r], and [retries - 1] is then [r]. The
    [try] block returns the promise of the recursive call without awaiting
    it, so a rejection of that promise does not reach this call's [catch]:
    the [catch] handles the rejection of [fetch] alone. *)
Fixpoint fetchWithRetry (url : string) (options : RequestInit) (retries : nat)
    : Async Response :=
  fun w =>
    match fetch url options w with
    | (Normal response, w1) =>
        if ok response then (Normal response, w1)
        else
          match retries with
          | S r =>
              if 500 <=? status response
              then (_ <- setTimeout 1000 ;; fetchWithRetry url options r) w1
              else (Normal response, w1)
          | O => (Normal response, w1)
          end
    | (Throw error, w1) =>
        match retries with
        | S r => (_ <- setTimeout 1000 ;; fetchWithRetry url options r) w1
        | O => (Throw error, w1)
        end
    end.

(** [result.response?.a?.b || result.a?.b], for a [result] that is not
    [null]. *)
Definition nested_or_flat (result : Json) (a b : string) : JsValue :=
  or_else (opt_member (opt_member (member result "response") a) b)
          (opt_member (member result a) b).

Definition failure (msg : JsValue) (d : Details) : DokuPaymentResponse :=
  {| success := false; paymentUrl := None; invoiceNumber := None;
     response_amount := None; message := msg; details := Some d |}.

(** The [catch] block of [createPayment]. *)
Definition createPayment_catch (error : Thrown) : Async DokuPaymentResponse :=
  _ <- console_error
         [ LogString "DOKU payment creation error:";
           if truthy (error_message error)
           then LogValue (error_message error)
           else LogThrown error ] ;;
  ret (failure
         (or_else (error_message error) (Some (JStr "Internal server error")))
         (DetailsThrown error)).

(** The second argument of [fetchWithRetry] in [createPayment]. *)
Definition createPayment_options (self : DokuClient)
    (requestBodyString requestId requestTimestamp requestTarget : string)
    : RequestInit :=
  {| req_method := "POST";
     req_headers :=
       generateHeaders self requestId requestTimestamp requestTarget
         requestBodyString;
     req_body := requestBodyString |}.

(** [requestId] and [now] are what [uuidv4()] and
    [new Date().toISOString()] return in this call. *)
Definition createPayment (self : DokuClient) (paymentData : DokuPaymentRequest)
    (requestId now : string) : Async DokuPaymentResponse :=
  try_catch
    (validatedData <- lift (PaymentRequestSchema_parse paymentData) ;;
     let requestTimestamp := (slice0 19 now ++ "Z")%string in
     let requestTarget := "/checkout/v1/payment" in
     let requestBodyString :=
       JSON_stringify (requestBody paymentData validatedData requestId) in
     response <- fetchWithRetry (baseUrl self ++ requestTarget)%string
                   (createPayment_options self requestBodyString requestId
                      requestTimestamp requestTarget) 3 ;;
     if negb (ok response) then
       errorData <- lift (json response) ;;
       error <- lift (get_member errorData "error") ;;
       ret (failure
              (or_else (opt_member error "message")
                       (Some (JStr "Failed to create payment")))
              (DetailsJson errorData))
     else
       result <- lift (json response) ;;
       _ <- lift (get_member result "response") ;;
       ret {| success := true;
              paymentUrl := nested_or_flat result "payment" "url";
              invoiceNumber := nested_or_flat result "order" "invoice_number";
              response_amount := nested_or_flat result "order" "amount";
              message := None;
              details := None |})
    createPayment_catch.

(** The placeholder: it returns false on every path. *)
Definition verifyNotificationSignature (self : DokuClient)
    (body : string) (receivedSignature timestamp requestId : option string) : bool :=
  if negb (truthy_string receivedSignature) || negb (truthy_string timestamp)
     || negb (truthy_string requestId)
  then false
  else false.

Definition validateSignature (self : DokuClient) (body : string)
    (headers : InboundHeaders) (requestTarget : string) : bool :=
  match signature headers, timestamp headers, requestId headers,
        inbound_clientId headers with
  | Some receivedSignature, Some timestamp, Some requestId, Some clientId' =>
      if (receivedSignature =? "")%string || (timestamp =? "")%string
         || (requestId =? "")%string || (clientId' =? "")%string
      then false
      else if negb (clientId' =? clientId (config self))%string
      then false
      else
        let digest := generateDigest body in
        let calculatedSignature :=
          generateSignature clientId' requestId requestTarget digest
            (secretKey (config self)) timestamp in
        (calculatedSignature =? receivedSignature)%string
  | _, _, _, _ => false
  end.

End WithLibraries.
End Client.
Import Client.

(** The paths through [createPayment], each with the result and the world
    it ends in. [createPayment_path_complete] shows that every call takes
    one of them. *)
Section Paths.
Context {crypto : CryptoJS} {zod : ZodLib} {jsontext : JSONText}.
Variables (self : DokuClient) (paymentData : DokuPaymentRequest)
          (requestId now : string) (w : World).

Definition createPayment_fetch (validatedData : DokuPaymentRequest)
    : Completion Response * World :=
  fetchWithRetry (baseUrl self ++ "/checkout/v1/payment")%string
    (createPayment_options self
       (JSON_stringify (requestBody paymentData validatedData requestId))
       requestId (slice0 19 now ++ "Z")%string "/checkout/v1/payment") 3 w.

Inductive createPayment_path : Completion DokuPaymentResponse * World -> Prop :=
| path_invalid_input (e : Thrown) :
    PaymentRequestSchema_parse paymentData = Throw e ->
    createPayment_path (createPayment_catch e w)
| path_transport_failed (v : DokuPaymentRequest) (e : Thrown) (w1 : World) :
    PaymentRequestSchema_parse paymentData = Normal v ->
    createPayment_fetch v = (Throw e, w1) ->
    createPayment_path (createPayment_catch e w1)
| path_body_unreadable (v : DokuPaymentRequest) (response : Response)
    (e : Thrown) (w1 : World) :
    PaymentRequestSchema_parse paymentData = Normal v ->
    createPayment_fetch v = (Normal response, w1) ->
    json response = Throw e ->
    createPayment_path (createPayment_catch e w1)
| path_body_null (v : DokuPaymentRequest) (response : Response)
    (e : Thrown) (w1 : World) :
    PaymentRequestSchema_parse paymentData = Normal v ->
    createPayment_fetch v = (Normal response, w1) ->
    json response = Normal JNull ->
    get_member JNull (if ok response then "response" else "error") = Throw e ->
    createPayment_path (createPayment_catch e w1)
| path_refused (v : DokuPaymentRequest) (response : Response)
    (errorData : Json) (w1 : World) :
    PaymentRequestSchema_parse paymentData = Normal v ->
    createPayment_fetch v = (Normal response, w1) ->
    ok response = false ->
    json response = Normal errorData ->
    errorData <> JNull ->
    createPayment_path
      (Normal (failure
                 (or_else (opt_member (member errorData "error") "message")
                          (Some (JStr "Failed to create payment")))
                 (DetailsJson errorData)), w1)
| path_created (v : DokuPaymentRequest) (response : Response)
    (result : Json) (w1 : World) :
    PaymentRequestSchema_parse paymentData = Normal v ->
    createPayment_fetch v = (Normal response, w1) ->
    ok response = true ->
    json response = Normal result ->
    result <> JNull ->
    createPayment_path
      (Normal {| success := true;
                 paymentUrl := nested_or_flat result "payment" "url";
                 invoiceNumber := nested_or_flat result "order" "invoice_number";
                 response_amount := nested_or_flat result "order" "amount";
                 message := None;
                 details := None |}, w1).

End Paths.

(* ===================================================================== *)
(** ** Signing and verifying when crypto-js throws *)
(* ===================================================================== *)

(** The first byte of a surrogate written as three bytes, and the second. *)
Definition surrogate_lead (a : ascii) : bool := (N_of_ascii a =? 237)%N.

Definition surrogate_next (a : ascii) : bool :=
  ((160 <=? N_of_ascii a) && (N_of_ascii a <=? 191))%N.

(** The string holds a surrogate that is not half of a pair. *)
Fixpoint lone_surrogate (s : string) : bool :=
  match s with
  | EmptyString => false
  | String a rest =>
      (surrogate_lead a
       && match rest with
          | String b _ => surrogate_next b
          | EmptyString => false
          end)
      || lone_surrogate rest
  end.

(** The functions of [signature.ts] and the verifier, with the exception
    crypto-js raises. crypto-js turns a string argument into bytes by
    [CryptoJS.enc.Utf8.parse], which is [unescape(encodeURIComponent(s))],
    and [encodeURIComponent] throws a [URIError] on a lone surrogate. The
    key of an HMAC is parsed before the message. *)
Module Throwing.
Section WithCrypto.
Context {crypto : CryptoJS}.

Definition URIError : Thrown := ErrorObject "URIError" "URI malformed".

(** [CryptoJS.enc.Utf8.parse(s)] *)
Definition Utf8_parse (s : string) : Completion string :=
  if lone_surrogate s then Throw URIError else Normal s.

(** [CryptoJS.SHA256(message)] *)
Definition SHA256_call (message : string) : Completion WordArray :=
  match Utf8_parse message with
  | Normal m => Normal (SHA256 m)
  | Throw e => Throw e
  end.

(** [CryptoJS.HmacSHA256(message, key)] *)
Definition HmacSHA256_call (message key : string) : Completion WordArray :=
  match Utf8_parse key with
  | Normal k =>
      match Utf8_parse message with
      | Normal m => Normal (HmacSHA256 m k)
      | Throw e => Throw e
      end
  | Throw e => Throw e
  end.

Definition generateDigest (jsonBody : string) : Completion string :=
  match SHA256_call jsonBody with
  | Normal hash => Normal (Base64_stringify hash)
  | Throw e => Throw e
  end.

Definition generateSignature
    (clientId requestId requestTarget digest secretKey requestTimestamp : string)
    : Completion string :=
  match HmacSHA256_call
          (componentSignature clientId requestId requestTarget digest requestTimestamp)
          secretKey with
  | Normal hmac256Value =>
      let signature := Base64_stringify hmac256Value in
      Normal ("HMACSHA256=" ++ signature)%string
  | Throw e => Throw e
  end.

Definition validateSignature (self : DokuClient) (body : string)
    (headers : InboundHeaders) (requestTarget : string) : Completion bool :=
  match signature headers, timestamp headers, requestId headers,
        inbound_clientId headers with
  | Some receivedSignature, Some timestamp, Some requestId, Some clientId' =>
      if (receivedSignature =? "")%string || (timestamp =? "")%string
         || (requestId =? "")%string || (clientId' =? "")%string
      then Normal false
      else if negb (clientId' =? clientId (config self))%string
      then Normal false
      else
        match generateDigest body with
        | Normal digest =>
            match generateSignature clientId' requestId requestTarget digest
                    (secretKey (config self)) timestamp with
            | Normal calculatedSignature =>
                Normal (calculatedSignature =? receivedSignature)%string
            | Throw e => Throw e
            end
        | Throw e => Throw e
        end
  | _, _, _, _ => Normal false
  end.

End WithCrypto.
End Throwing.

(** The string that is the surrogate U+D800 alone. *)
Definition lone_D800 : string :=
  String "237"%char (String "160"%char (String "128"%char "")).

(* ===================================================================== *)
(** ** Instances and data to run the client on *)
(* ===================================================================== *)

(** The examples run on stand-ins for the two zod formats and for
    [JSON.stringify]: they accept or print less than the libraries do, and
    agree with them on the data used below. The text of a [ZodError] is a
    plain rendering of its issues, where zod prints them as JSON. The
    theorems hold for every instance. *)
Module Examples.

Fixpoint contains (c : ascii) (s : string) : bool :=
  match s with
  | EmptyString => false
  | String a rest => Ascii.eqb a c || contains c rest
  end.

(** Something, an at sign, something with a dot. *)
Fixpoint email_shape (s : string) (seen : bool) : bool :=
  match s with
  | EmptyString => false
  | String a rest =>
      if Ascii.eqb a "@"%char
      then seen && contains "."%char rest && negb (contains "@"%char rest)
      else email_shape rest true
  end.

Definition url_shape (s : string) : bool :=
  (prefix "https://" s || prefix "http://" s)
  && Nat.ltb 8 (String.length s).

Fixpoint issue_messages (issues : list ZodIssue) : string :=
  match issues with
  | [] => ""
  | i :: rest =>
      (issue_path i ++ ": "
       ++ match issue_message i with Some m => m | None => "Invalid input" end
       ++ "; " ++ issue_messages rest)%string
  end.

#[export] Instance zod_lib : ZodLib := {
  is_email s := email_shape s false;
  is_url := url_shape;
  ZodError_message := issue_messages
}.

Definition quote : string := String "034"%char "".

Fixpoint escape (s : string) : string :=
  match s with
  | EmptyString => ""
  | String a rest =>
      if Ascii.eqb a "034"%char || Ascii.eqb a "092"%char
      then String "092"%char (String a (escape rest))
      else String a (escape rest)
  end.

Definition json_string (s : string) : string := (quote ++ escape s ++ quote)%string.

Definition decimal (z : Z) : string :=
  DecimalString.NilZero.string_of_int (Z.to_int z).

(** Integers print as JavaScript prints them below 10^21; [NaN] and the
    infinities print as [null]. Other numbers do not occur in the
    examples. *)
Definition json_number (n : number) : string :=
  match n with
  | S754_zero _ => "0"
  | S754_nan | S754_infinity _ => "null"
  | S754_finite s m e =>
      let v := if 0 <=? e then Z.pos m * 2 ^ e else Z.pos m / 2 ^ (- e) in
      decimal (if s then - v else v)
  end.

Fixpoint json_strings (l : list string) : string :=
  match l with
  | [] => ""
  | [s] => json_string s
  | s :: rest => (json_string s ++ "," ++ json_strings rest)%string
  end.

Definition field (k v : string) : string := (json_string k ++ ":" ++ v)%string.

Definition stringify (b : RequestBody) : string :=
  ("{" ++ field "order"
     ("{" ++ field "amount" (json_number (order_amount (order b)))
      ++ "," ++ field "invoice_number" (json_string (invoice_number (order b)))
      ++ "," ++ field "currency" (json_string (currency (order b)))
      ++ "," ++ field "callback_url" (json_string (callback_url (order b))) ++ "}")
   ++ "," ++ field "payment"
     ("{" ++ field "payment_due_date" (json_number (payment_due_date (payment b)))
      ++ "," ++ field "payment_method_types"
                  ("[" ++ json_strings (payment_method_types (payment b)) ++ "]") ++ "}")
   ++ "," ++ field "customer"
     ("{" ++ field "id" (json_string (customer_id (customer b)))
      ++ "," ++ field "name" (json_string (customer_name (customer b)))
      ++ "," ++ field "phone" (json_string (customer_phone (customer b)))
      ++ "," ++ field "country" (json_string (country (customer b))) ++ "}")
   ++ "}")%string.

#[export] Instance json_text : JSONText := { JSON_stringify := stringify }.

(** The configuration and the payment of the repository's tests. *)
Definition test_config : ConfigInput :=
  {| in_clientId := Some (JStr "TEST-CLIENT-ID");
     in_secretKey := Some (JStr "TEST-SECRET-KEY");
     in_isProduction := Some (JBool false) |}.

Definition test_client : DokuClient :=
  {| config := {| clientId := "TEST-CLIENT-ID"; secretKey := "TEST-SECRET-KEY";
                  isProduction := false |};
     baseUrl := "https://api-sandbox.doku.com" |}.

Definition test_payment (order_id : string) : DokuPaymentRequest :=
  {| orderId := order_id;
     amount := number_of_Z 10000;
     customerName := "John Doe";
     customerEmail := "john@example.com";
     customerPhone := "08123456789";
     description := None;
     returnUrl := "https://example.com/callback";
     expiredTime := None;
     paymentMethodTypes := None |}.

Definition test_uuid : string := "3f1c2a9e-8b47-4d1a-9c55-0e6f7a21b3d4".
Definition test_now : string := "2023-01-01T00:00:00.000Z".

(** A mock of [fetch]: the [i]-th call settles as the [i]-th entry of the
    script, and as [otherwise] past its end. *)
Definition mock (script : list (Completion Response))
    (otherwise : Completion Response) : World :=
  {| remote := fun i _ _ => nth i script otherwise;
     sent := [];
     waited_ms := 0;
     console := [] |}.

Definition network_error : Completion Response :=
  Throw (ErrorObject "Error" "Network Error").

Definition respond (code : Z) (body : Json) : Completion Response :=
  Normal {| ok := (200 <=? code) && (code <=? 299); status := code;
            json := Normal body |}.

Definition payment_created (invoice : string) : Json :=
  JObj [("response",
         JObj [("payment", JObj [("url", JStr "https://example.com/payment")]);
               ("order", JObj [("invoice_number", JStr invoice);
                               ("amount", JNum (number_of_Z 10000))])])].



End Examples.
Import Examples.

(* ===================================================================== *)
(** ** src/types.ts: the type guards *)
(* ===================================================================== *)

(** A notification is the object [JSON.parse] gives for the body of a
    webhook. The guards read [data.service.id] and nothing else. *)
Module Notification.

(** [v.k] on any value: a [TypeError] on [undefined] and on [null].
    Neither [service] nor [id] is a property of a boolean, number, string
    or array. *)
Definition get_of (v : JsValue) (k : string) : Completion JsValue :=
  match v with
  | None => Throw (ErrorObject "TypeError"
              ("Cannot read properties of undefined (reading '" ++ k ++ "')")%string)
  | Some j => get_member j k
  end.

(** [v === s] for a string [s] *)
Definition strict_equals (v : JsValue) (s : string) : bool :=
  match v with
  | Some (JStr s') => (s' =? s)%string
  | _ => false
  end.

(** [data.service.id] *)
Definition service_id (data : Json) : Completion JsValue :=
  match get_member data "service" with
  | Normal service => get_of service "id"
  | Throw e => Throw e
  end.

(** [data.service.id === code] *)
Definition service_id_is (code : string) (data : Json) : Completion bool :=
  match service_id data with
  | Normal id => Normal (strict_equals id code)
  | Throw e => Throw e
  end.

Definition isVirtualAccountNotification (data : Json) : Completion bool :=
  service_id_is "VIRTUAL_ACCOUNT" data.

Definition isOnlineToOfflineNotification (data : Json) : Completion bool :=
  service_id_is "ONLINE_TO_OFFLINE" data.

Definition isQrisNotification (data : Json) : Completion bool :=
  service_id_is "QRIS" data.

Definition isCreditCardNotification (data : Json) : Completion bool :=
  service_id_is "CREDIT_CARD" data.

Definition isDirectDebitNotification (data : Json) : Completion bool :=
  service_id_is "DIRECT_DEBIT" data.

Definition isEmoneyNotification (data : Json) : Completion bool :=
  service_id_is "EMONEY" data.

Definition isPayLaterNotification (data : Json) : Completion bool :=
  service_id_is "PEER_TO_PEER" data.

(** The seven guards, in the order of the file. *)
Definition guards : list (Json -> Completion bool) :=
  [ isVirtualAccountNotification; isOnlineToOfflineNotification;
    isQrisNotification; isCreditCardNotification; isDirectDebitNotification;
    isEmoneyNotification; isPayLaterNotification ].

(** The codes the guards compare with, in the same order. *)
Definition service_codes : list string :=
  [ "VIRTUAL_ACCOUNT"; "ONLINE_TO_OFFLINE"; "QRIS"; "CREDIT_CARD";
    "DIRECT_DEBIT"; "EMONEY"; "PEER_TO_PEER" ].

End Notification.
Import Notification.

(** What [fetchWithRetry] answers with a new attempt while budget is left:
    a rejection of [fetch], and a response that is not ok with a status of
    500 or more. *)
Definition retryable (outcome : Completion Response) : bool :=
  match outcome with
  | Throw _ => true
  | Normal response => negb (ok response) && (500 <=? status response)
  end.

(** The headers of a request, as the receiving side reads them. *)
Definition inbound_of (h : Headers) : InboundHeaders :=
  {| signature := Some (h_Signature h);
     timestamp := Some (h_Request_Timestamp h);
     requestId := Some (h_Request_Id h);
     inbound_clientId := Some (h_Client_Id h) |}.

(** More data to run the client on. *)
Definition unreadable : Response :=
  {| ok := true; status := 200;
     json := Throw (ErrorObject "SyntaxError" "Unexpected end of JSON input") |}.

Definition server_error : Response :=
  {| ok := false; status := 500; json := Normal (JObj []) |}.

Definition bad_request : Response :=
  {| ok := false; status := 400;
     json := Normal (JObj [("error", JObj [("message", JStr "Invalid Request")])]) |}.

Definition created : Response :=
  {| ok := true; status := 200; json := Normal (payment_created "INV-123") |}.

Definition invalid_email_payment : DokuPaymentRequest :=
  {| orderId := "INV-123"; amount := number_of_Z 10000;
     customerName := "John Doe"; customerEmail := "invalid-email";
     customerPhone := "08123456789"; description := None;
     returnUrl := "https://example.com/callback";
     expiredTime := None; paymentMethodTypes := None |}.

Definition virtual_account_paid : Json :=
  JObj [("order", JObj [("invoice_number", JStr "INV-123");
                        ("amount", JNum (number_of_Z 10000))]);
        ("transaction", JObj [("status", JStr "SUCCESS");
                              ("date", JStr "2023-01-01T00:00:00Z")]);
        ("service", JObj [("id", JStr "VIRTUAL_ACCOUNT")]);
        ("acquirer", JObj [("id", JStr "BCA")]);
        ("channel", JObj [("id", JStr "VIRTUAL_ACCOUNT_BCA")]);
        ("virtual_account_info",
         JObj [("virtual_account_number", JStr "1900800000207804")]);
        ("virtual_account_payment", JObj [])].

(* ===================================================================== *)
(** ** Strings *)
(* ===================================================================== *)

Lemma eqb_empty_false (s : string) : s <> "" -> (s =? "")%string = false.
Proof. intro H. now apply String.eqb_neq. Qed.

Lemma append_assoc (a b c : string) : ((a ++ b) ++ c = a ++ (b ++ c))%string.
Proof. induction a as [|x a IH]; simpl; [reflexivity | now rewrite IH]. Qed.

Lemma append_empty_r (a : string) : (a ++ "")%string = a.
Proof. induction a as [|x a IH]; simpl; [reflexivity | now rewrite IH]. Qed.

Lemma append_length (a b : string) :
  String.length (a ++ b) = (String.length a + String.length b)%nat.
Proof. induction a as [|x a IH]; simpl; [reflexivity | now rewrite IH]. Qed.

Lemma append_cancel_l (a x y : string) : (a ++ x = a ++ y)%string -> x = y.
Proof.
  induction a as [|c a IH]; simpl; intro H; [exact H |].
  injection H as H. now apply IH.
Qed.

(** Two equal concatenations with left parts of one length split alike. *)
Lemma append_split (x y a b : string) :
  String.length x = String.length y ->
  (x ++ a = y ++ b)%string -> x = y /\ a = b.
Proof.
  revert y. induction x as [|c x IH]; intros [|d y]; simpl; intros Hlen H;
    try discriminate.
  - now split.
  - injection H as Hc H. injection Hlen as Hlen.
    destruct (IH y Hlen H) as [-> ->]. now subst.
Qed.

Lemma append_cancel_r (x y a : string) : (x ++ a = y ++ a)%string -> x = y.
Proof.
  intro H. apply (append_split x y a a); [| exact H].
  apply (f_equal String.length) in H. rewrite !append_length in H. lia.
Qed.

(* ===================================================================== *)
(** ** The constructor *)
(* ===================================================================== *)

Section Constructor.
Context {zod : ZodLib}.

Lemma ConfigSchema_parse_Normal (cfg : ConfigInput) (c : DokuConfig) :
  ConfigSchema_parse cfg = Normal c ->
  in_clientId cfg = Some (JStr (clientId c))
  /\ in_secretKey cfg = Some (JStr (secretKey c))
  /\ in_isProduction cfg = Some (JBool (isProduction c))
  /\ clientId c <> "" /\ secretKey c <> "".
Proof.
  unfold ConfigSchema_parse, ConfigSchema_issues, any_string_min1, any_boolean,
    string_min1.
  destruct (in_clientId cfg) as [[| | |id| |]|]; simpl; try discriminate.
  destruct (String.eqb_spec id ""); simpl; try discriminate.
  destruct (in_secretKey cfg) as [[| | |key| |]|]; simpl; try discriminate.
  destruct (String.eqb_spec key ""); simpl; try discriminate.
  destruct (in_isProduction cfg) as [[|b| | | |]|]; simpl; try discriminate.
  intro H. injection H as <-. simpl. repeat split; assumption.
Qed.

Lemma constructor_Normal (cfg : ConfigInput) (self : DokuClient) :
  constructor cfg = Normal self ->
  ConfigSchema_parse cfg = Normal (config self)
  /\ baseUrl self = if truthy (in_isProduction cfg)
                    then "https://api.doku.com"
                    else "https://api-sandbox.doku.com".
Proof.
  unfold constructor. destruct (ConfigSchema_parse cfg) as [c|e]; [| discriminate].
  intro H. injection H as <-. now split.
Qed.

Lemma ConfigSchema_parse_throws (cfg : ConfigInput) :
  ConfigSchema_issues cfg <> [] ->
  ConfigSchema_parse cfg = Throw (ZodError (ConfigSchema_issues cfg)).
Proof.
  unfold ConfigSchema_parse. destruct (ConfigSchema_issues cfg); [congruence |].
  reflexivity.
Qed.

(** C10. Constructing a client throws when [clientId] is the empty string,
    when [secretKey] is the empty string, and when [isProduction] is not a
    boolean. When it succeeds, the stored credentials and flag are the
    ones supplied, and the base URL is the production host when the flag
    is true and the sandbox host when it is false. *)
Theorem constructor_validation (cfg : ConfigInput) :
  (in_clientId cfg = Some (JStr "") -> exists e, constructor cfg = Throw e)
  /\ (in_secretKey cfg = Some (JStr "") -> exists e, constructor cfg = Throw e)
  /\ ((forall b, in_isProduction cfg <> Some (JBool b)) ->
      exists e, constructor cfg = Throw e)
  /\ (forall self, constructor cfg = Normal self ->
      in_clientId cfg = Some (JStr (clientId (config self)))
      /\ in_secretKey cfg = Some (JStr (secretKey (config self)))
      /\ in_isProduction cfg = Some (JBool (isProduction (config self)))
      /\ baseUrl self = if isProduction (config self)
                        then "https://api.doku.com"
                        else "https://api-sandbox.doku.com").
Proof.
  assert (Hthrow : ConfigSchema_issues cfg <> [] ->
                   exists e, constructor cfg = Throw e).
  { intro H. unfold constructor. rewrite (ConfigSchema_parse_throws cfg H).
    eauto. }
  repeat split.
  - intro H. apply Hthrow. unfold ConfigSchema_issues. rewrite H. discriminate.
  - intro H. apply Hthrow. unfold ConfigSchema_issues. rewrite H.
    intro E. apply app_eq_nil in E as [_ E]. discriminate.
  - intro H. apply Hthrow. unfold ConfigSchema_issues. intro E.
    apply app_eq_nil in E as [_ E]. apply app_eq_nil in E as [_ E].
    unfold any_boolean in E.
    destruct (in_isProduction cfg) as [[|b| | | |]|]; try discriminate.
    now apply (H b).
  - apply constructor_Normal in H as [H _].
    now apply ConfigSchema_parse_Normal in H.
  - apply constructor_Normal in H as [H _].
    now apply ConfigSchema_parse_Normal in H.
  - apply constructor_Normal in H as [H _].
    now apply ConfigSchema_parse_Normal in H.
  - apply constructor_Normal in H as [H ->].
    apply ConfigSchema_parse_Normal in H as (_ & _ & -> & _).
    reflexivity.
Qed.

End Constructor.

(* ===================================================================== *)
(** ** Signing and verifying *)
(* ===================================================================== *)

Section Signing.
Context {crypto : CryptoJS}.

Lemma componentSignature_canonical (c r p d t : string) :
  componentSignature c r p d t = canonical_string c r t p d.
Proof.
  unfold componentSignature, canonical_string, canonical_lines.
  destruct (d =? "")%string; simpl; rewrite !append_assoc; reflexivity.
Qed.

(** C2. [generateSignature] returns ["HMACSHA256="] followed by the Base64
    text of the HMAC-SHA256, keyed by [secretKey], of the four lines
    [Client-Id], [Request-Id], [Request-Timestamp], [Request-Target]
    joined by line feeds with none at the end; the line [Digest] follows,
    after one more line feed, exactly when the digest is not empty. *)
Theorem generateSignature_format (c r p d k t : string) :
  generateSignature c r p d k t
  = ("HMACSHA256=" ++ Base64_stringify (HmacSHA256 (canonical_string c r t p d) k))%string
  /\ (d = "" ->
      canonical_string c r t p d
      = ("Client-Id:" ++ c ++ LF ++ "Request-Id:" ++ r ++ LF
         ++ "Request-Timestamp:" ++ t ++ LF ++ "Request-Target:" ++ p)%string)
  /\ (d <> "" ->
      canonical_string c r t p d
      = ("Client-Id:" ++ c ++ LF ++ "Request-Id:" ++ r ++ LF
         ++ "Request-Timestamp:" ++ t ++ LF ++ "Request-Target:" ++ p
         ++ LF ++ "Digest:" ++ d)%string).
Proof.
  split; [| split].
  - unfold generateSignature. now rewrite componentSignature_canonical.
  - intros ->. reflexivity.
  - intro H. unfold canonical_string, canonical_lines.
    rewrite (eqb_empty_false d H). reflexivity.
Qed.

Lemma generateSignature_not_empty (c r p d k t : string) :
  generateSignature c r p d k t <> "".
Proof. unfold generateSignature. simpl. discriminate. Qed.

(** The verifier where the hash functions return: [validateSignature] is
    false when one of the four header values is absent or empty, and false
    when the inbound client id is not the configured one, whatever the body
    and the hashes are. On four non-empty values with the configured client
    id it is true exactly when the signature computed from them is the
    received string, character for character. *)
Theorem validateSignature_policy
    (self : DokuClient) (body : string) (headers : InboundHeaders)
    (requestTarget : string) :
  (truthy_string (signature headers) = false
   \/ truthy_string (timestamp headers) = false
   \/ truthy_string (requestId headers) = false
   \/ truthy_string (inbound_clientId headers) = false ->
   validateSignature self body headers requestTarget = false)
  /\ (inbound_clientId headers <> Some (clientId (config self)) ->
      validateSignature self body headers requestTarget = false)
  /\ (forall sig ts rid,
      headers = {| signature := Some sig; timestamp := Some ts;
                   requestId := Some rid;
                   inbound_clientId := Some (clientId (config self)) |} ->
      sig <> "" -> ts <> "" -> rid <> "" -> clientId (config self) <> "" ->
      (validateSignature self body headers requestTarget = true
       <-> generateSignature (clientId (config self)) rid requestTarget
             (generateDigest body) (secretKey (config self)) ts = sig)).
Proof.
  unfold validateSignature. destruct headers as [sig ts rid cid].
  cbn [signature timestamp requestId inbound_clientId].
  split; [| split].
  - destruct sig as [sig|], ts as [ts|], rid as [rid|], cid as [cid|];
      try reflexivity.
    cbn [truthy_string]. intros [H | [H | [H | H]]];
      apply negb_false_iff in H; rewrite H; cbn [orb];
      rewrite ?orb_true_r; reflexivity.
  - intro Hcid.
    destruct sig as [sig|], ts as [ts|], rid as [rid|], cid as [cid|];
      try reflexivity.
    destruct (_ || _ || _ || _); [reflexivity |].
    destruct (String.eqb_spec cid (clientId (config self))) as [-> | _];
      [congruence | reflexivity].
  - intros sig' ts' rid' H Hsig Hts Hrid Hcid. injection H as -> -> -> ->.
    rewrite !eqb_empty_false by assumption. cbn [orb].
    rewrite String.eqb_refl. cbn [negb]. apply String.eqb_eq.
Qed.

(** The placeholder [verifyNotificationSignature] accepts nothing. *)
Lemma verifyNotificationSignature_false
    (self : DokuClient) (body : string) (sig ts rid : option string) :
  verifyNotificationSignature self body sig ts rid = false.
Proof. unfold verifyNotificationSignature. now destruct (_ || _ || _). Qed.

(** C1. On a client the constructor accepted, a signature made by
    [generateSignature] over the digest of a body, with the client's id and
    secret key and a non-empty request id and timestamp, is accepted by
    [validateSignature] for that body, those header values and that
    target. (The target may be any string; the secret key is not empty
    because the constructor accepted it.) *)
Theorem sign_verify_roundtrip {zod : ZodLib}
    (cfg : ConfigInput) (self : DokuClient)
    (body rid ts requestTarget : string) :
  constructor cfg = Normal self ->
  rid <> "" -> ts <> "" ->
  validateSignature self body
    {| signature :=
         Some (generateSignature (clientId (config self)) rid requestTarget
                 (generateDigest body) (secretKey (config self)) ts);
       timestamp := Some ts;
       requestId := Some rid;
       inbound_clientId := Some (clientId (config self)) |}
    requestTarget = true.
Proof.
  intros Hnew Hrid Hts.
  apply constructor_Normal in Hnew as [Hcfg _].
  apply ConfigSchema_parse_Normal in Hcfg as (_ & _ & _ & Hid & _).
  unfold validateSignature.
  cbn [signature timestamp requestId inbound_clientId].
  rewrite (eqb_empty_false _ (generateSignature_not_empty _ _ _ _ _ _)).
  rewrite !eqb_empty_false by assumption. cbn [orb].
  rewrite !String.eqb_refl. reflexivity.
Qed.

End Signing.

(** The round trip on the data of the repository's test. *)
Lemma sign_verify_roundtrip_witness :
  constructor test_config = Normal test_client
  /\ "req-123" <> "" /\ "2023-01-01T00:00:00Z" <> ""
  /\ validateSignature test_client "{}"
       {| signature :=
            Some (generateSignature (clientId (config test_client)) "req-123"
                    "/api/callback" (generateDigest "{}")
                    (secretKey (config test_client)) "2023-01-01T00:00:00Z");
          timestamp := Some "2023-01-01T00:00:00Z";
          requestId := Some "req-123";
          inbound_clientId := Some (clientId (config test_client)) |}
       "/api/callback" = true.
Proof.
  assert (H : constructor test_config = Normal test_client) by reflexivity.
  assert (H1 : "req-123" <> "") by discriminate.
  assert (H2 : "2023-01-01T00:00:00Z" <> "") by discriminate.
  refine (conj H (conj H1 (conj H2 _))).
  exact (sign_verify_roundtrip test_config test_client "{}" "req-123"
           "2023-01-01T00:00:00Z" "/api/callback" H H1 H2).
Defined.

(* ===================================================================== *)
(** ** The retrying transport *)
(* ===================================================================== *)


Section Transport.
Variables (url : string) (options : RequestInit).

Lemma fetch_calls_fetch (w : World) :
  fetch_calls (snd (fetch url options w)) = S (fetch_calls w).
Proof.
  unfold fetch, fetch_calls. cbn [snd sent]. rewrite length_app. simpl. lia.
Qed.

Lemma fetchWithRetry_O (w : World) :
  fetchWithRetry url options 0 w = fetch url options w.
Proof.
  cbn [fetchWithRetry].
  destruct (fetch url options w) as [[response | error] w1];
    [destruct (ok response) |]; reflexivity.
Qed.

Lemma fetchWithRetry_S (r : nat) (w : World) :
  fetchWithRetry url options (S r) w
  = match fetch url options w with
    | (Normal response, w1) =>
        if ok response || negb (500 <=? status response)
        then (Normal response, w1)
        else fetchWithRetry url options r (snd (setTimeout 1000 w1))
    | (Throw error, w1) => fetchWithRetry url options r (snd (setTimeout 1000 w1))
    end.
Proof.
  cbn [fetchWithRetry].
  destruct (fetch url options w) as [[response | error] w1];
    [destruct (ok response), (500 <=? status response) |]; reflexivity.
Qed.

(** What a run leaves behind: the transport answers as before, and the
    same request was sent again on each attempt, at least once and at most
    once more than the budget. *)
Lemma fetchWithRetry_world (n : nat) (w : World) :
  remote (snd (fetchWithRetry url options n w)) = remote w
  /\ console (snd (fetchWithRetry url options n w)) = console w
  /\ exists k, (1 <= k <= n + 1)%nat
       /\ sent (snd (fetchWithRetry url options n w))
          = sent w ++ repeat (url, options) k.
Proof.
  revert w. induction n as [|n IH]; intro w.
  - rewrite fetchWithRetry_O. unfold fetch. cbn [snd remote console sent].
    repeat split. exists 1%nat. split; [lia | reflexivity].
  - rewrite fetchWithRetry_S. unfold fetch.
    assert (Hretry : forall w',
              remote w' = remote w -> console w' = console w ->
              sent w' = sent w ++ [(url, options)] ->
              remote (snd (fetchWithRetry url options n w')) = remote w
              /\ console (snd (fetchWithRetry url options n w')) = console w
              /\ exists k, (1 <= k <= S n + 1)%nat
                   /\ sent (snd (fetchWithRetry url options n w'))
                      = sent w ++ repeat (url, options) k).
    { intros w' Hr Hc Hs. destruct (IH w') as (IHr & IHc & k & Hk & IHs).
      rewrite IHr, IHc, IHs, Hr, Hc, Hs. repeat split.
      exists (S k). split; [lia |]. now rewrite <- app_assoc. }
    destruct (remote w (fetch_calls w) url options) as [response | error].
    + destruct (ok response || negb (500 <=? status response)).
      * cbn [snd remote console sent]. repeat split.
        exists 1%nat. split; [lia | reflexivity].
      * apply Hretry; reflexivity.
    + apply Hretry; reflexivity.
Qed.

Lemma fetchWithRetry_calls (n : nat) (w : World) :
  (fetch_calls w < fetch_calls (snd (fetchWithRetry url options n w))
   <= fetch_calls w + n + 1)%nat.
Proof.
  destruct (fetchWithRetry_world n w) as (_ & _ & k & Hk & Hs).
  unfold fetch_calls. rewrite Hs, length_app, repeat_length. lia.
Qed.

(** A response that is the result is one the transport gave. *)
Lemma fetchWithRetry_response (n : nat) (w : World) (response : Response) :
  fst (fetchWithRetry url options n w) = Normal response ->
  exists i, remote w i url options = Normal response.
Proof.
  revert w. induction n as [|n IH]; intro w.
  - rewrite fetchWithRetry_O. unfold fetch. cbn [fst]. eauto.
  - rewrite fetchWithRetry_S. unfold fetch.
    destruct (remote w (fetch_calls w) url options) as [r | error] eqn:E.
    + destruct (ok r || negb (500 <=? status r)).
      * cbn [fst]. intro H. injection H as <-. eauto.
      * intro H. apply IH in H. exact H.
    + intro H. apply IH in H. exact H.
Qed.

(** A transport that rejects every call is called once more than the
    budget, each wait lasts a second, and the last rejection is the
    result. *)
Lemma fetchWithRetry_always_rejected (n : nat) (w : World) :
  (forall i, exists e, remote w i url options = Throw e) ->
  fetch_calls (snd (fetchWithRetry url options n w)) = (fetch_calls w + n + 1)%nat
  /\ waited_ms (snd (fetchWithRetry url options n w)) = waited_ms w + 1000 * Z.of_nat n
  /\ fst (fetchWithRetry url options n w)
     = remote w (fetch_calls w + n)%nat url options.
Proof.
  revert w. induction n as [|n IH]; intros w Hrej.
  - rewrite fetchWithRetry_O. split; [| split].
    + rewrite fetch_calls_fetch. lia.
    + unfold fetch. cbn [snd waited_ms]. lia.
    + unfold fetch. cbn [fst]. now rewrite Nat.add_0_r.
  - rewrite fetchWithRetry_S. unfold fetch.
    destruct (Hrej (fetch_calls w)) as [e He]. rewrite He.
    match goal with |- context [fetchWithRetry _ _ _ ?w'] =>
      destruct (IH w' Hrej) as (IHc & IHw & IHr) end.
    rewrite IHc, IHw, IHr. unfold fetch_calls.
    cbn [setTimeout snd waited_ms remote sent].
    rewrite length_app. cbn [List.length].
    repeat split; try lia. f_equal. lia.
Qed.


End Transport.

(* ===================================================================== *)
(** ** createPayment *)
(* ===================================================================== *)

Lemma positive_truthy (n : number) : positive n = true -> truthy_number n = true.
Proof.
  destruct n as [s | s | | s m e]; cbv [positive zero SFltb SFcompare truthy_number];
    intro H; congruence.
Qed.

Lemma or_else_truthy (a : JsValue) (s : string) :
  s <> "" -> truthy (or_else a (Some (JStr s))) = true.
Proof.
  intro H. unfold or_else. destruct (truthy a) eqn:E; [exact E |].
  simpl. now rewrite (eqb_empty_false s H).
Qed.

Section Payment.
Context {crypto : CryptoJS} {zod : ZodLib} {jsontext : JSONText}.

Lemma PaymentRequestSchema_parse_Normal (d v : DokuPaymentRequest) :
  PaymentRequestSchema_parse d = Normal v ->
  v = d /\ PaymentRequestSchema_issues d = [].
Proof.
  unfold PaymentRequestSchema_parse.
  destruct (PaymentRequestSchema_issues d); [| discriminate].
  intro H. injection H as <-. now split.
Qed.

Lemma accepted_expiredTime (d v : DokuPaymentRequest) (n : number) :
  PaymentRequestSchema_parse d = Normal v ->
  expiredTime d = Some n -> positive n = true.
Proof.
  intros H Hn. apply PaymentRequestSchema_parse_Normal in H as [_ H].
  unfold PaymentRequestSchema_issues in H.
  repeat (apply app_eq_nil in H as [_ H]).
  rewrite Hn in H. unfold optional, number_positive in H.
  destruct n; try discriminate; destruct (positive _); congruence.
Qed.

Lemma createPayment_path_complete (self : DokuClient) (d : DokuPaymentRequest)
    (rid now : string) (w : World) :
  createPayment_path self d rid now w (createPayment self d rid now w).
Proof.
  unfold createPayment, try_catch, bind, lift, ret.
  destruct (PaymentRequestSchema_parse d) as [v | e] eqn:Hparse.
  2: { now apply path_invalid_input. }
  fold (createPayment_fetch self d rid now w v).
  destruct (createPayment_fetch self d rid now w v) as [[response | e] w1] eqn:Hrun.
  2: { now apply path_transport_failed with v. }
  destruct (ok response) eqn:Hok; cbn [negb];
    (destruct (json response) as [body | e] eqn:Hjson;
     [| now apply path_body_unreadable with v response]);
    destruct body; cbn [get_member];
    try (apply path_body_null with v response; try assumption;
         rewrite Hok; reflexivity);
    first [ apply path_created with v response
          | apply path_refused with v response ];
    try assumption; discriminate.
Qed.

Lemma createPayment_catch_run (e : Thrown) (w : World) :
  fst (createPayment_catch e w)
  = Normal (failure (or_else (error_message e) (Some (JStr "Internal server error")))
                    (DetailsThrown e))
  /\ remote (snd (createPayment_catch e w)) = remote w
  /\ sent (snd (createPayment_catch e w)) = sent w
  /\ waited_ms (snd (createPayment_catch e w)) = waited_ms w.
Proof. repeat split. Qed.

(** The requests a call of [createPayment] sends: none when the input is
    refused, and otherwise those of its one run of [fetchWithRetry]. *)
Lemma createPayment_sent (self : DokuClient) (d : DokuPaymentRequest)
    (rid now : string) (w : World) :
  (sent (snd (createPayment self d rid now w)) = sent w
   /\ exists e, PaymentRequestSchema_parse d = Throw e)
  \/ (exists v, PaymentRequestSchema_parse d = Normal v
      /\ sent (snd (createPayment self d rid now w))
         = sent (snd (createPayment_fetch self d rid now w v))).
Proof.
  destruct (createPayment_path_complete self d rid now w)
    as [e H | v e w1 H Hrun | v response e w1 H Hrun ?
        | v response e w1 H Hrun ? ? | v response errorData w1 H Hrun ? ? ?
        | v response result w1 H Hrun ? ? ?];
    [left; split; [reflexivity | eauto] | right; exists v; split; [exact H |] ..];
    rewrite Hrun; reflexivity.
Qed.

(** C5. [fetchWithRetry] is a total function of the budget [n]: every call
    returns, after at least one and at most [n + 1] calls of [fetch]. When
    the transport rejects every call, [fetch] is called exactly [n + 1]
    times and the run ends in the rejection of the last call, thrown and
    not returned as a response. [createPayment] runs it with budget 3 and
    so calls [fetch] at most 4 times. *)
Theorem fetchWithRetry_attempts
    (url : string) (options : RequestInit) (n : nat) (w : World) :
  (exists settled w', fetchWithRetry url options n w = (settled, w'))
  /\ (fetch_calls w < fetch_calls (snd (fetchWithRetry url options n w))
      <= fetch_calls w + n + 1)%nat
  /\ ((forall i, exists e, remote w i url options = Throw e) ->
      fetch_calls (snd (fetchWithRetry url options n w)) = (fetch_calls w + n + 1)%nat
      /\ exists e, fst (fetchWithRetry url options n w) = Throw e
           /\ remote w (fetch_calls w + n)%nat url options = Throw e)
  /\ (forall self d rid now,
      (fetch_calls (snd (createPayment self d rid now w)) <= fetch_calls w + 4)%nat).
Proof.
  split; [| split; [apply fetchWithRetry_calls | split]].
  - destruct (fetchWithRetry url options n w) as [settled w']. eauto.
  - intro Hrej.
    destruct (fetchWithRetry_always_rejected url options n w Hrej) as (Hc & _ & Hr).
    split; [exact Hc |].
    destruct (Hrej (fetch_calls w + n)%nat) as [e He].
    exists e. split; [now rewrite Hr | exact He].
  - intros self d rid now. unfold fetch_calls at 1.
    destruct (createPayment_sent self d rid now w) as [[-> _] | (v & _ & ->)].
    + unfold fetch_calls. lia.
    + unfold createPayment_fetch.
      match goal with |- context [fetchWithRetry ?u ?o 3 w] =>
        pose proof (fetchWithRetry_calls u o 3 w) as H end.
      unfold fetch_calls in *. lia.
Qed.

(** C7, as the code has it. Every call of [createPayment] returns a result.
    When [success] is true, [paymentUrl] and [invoiceNumber] are what the
    body of an ok response of the transport carries, the member under
    [response] when it is truthy and the member at top level otherwise
    (so they are absent when the body has neither), and there is no
    message. When [success] is false, [message] is a truthy value, and
    [details] is the parsed error body of a response that was not ok or the
    value that was thrown. *)
Theorem createPayment_result_shape (self : DokuClient) (d : DokuPaymentRequest)
    (rid now : string) (w : World) :
  exists r,
    fst (createPayment self d rid now w) = Normal r
    /\ (success r = true ->
        exists response result i url options,
          remote w i url options = Normal response
          /\ ok response = true
          /\ json response = Normal result
          /\ paymentUrl r = nested_or_flat result "payment" "url"
          /\ invoiceNumber r = nested_or_flat result "order" "invoice_number"
          /\ message r = None)
    /\ (success r = false ->
        truthy (message r) = true
        /\ ((exists response errorData i url options,
               remote w i url options = Normal response
               /\ ok response = false
               /\ json response = Normal errorData
               /\ details r = Some (DetailsJson errorData))
            \/ (exists e,
                  details r = Some (DetailsThrown e)
                  /\ message r = or_else (error_message e)
                                   (Some (JStr "Internal server error"))))).
Proof.
  destruct (createPayment_path_complete self d rid now w)
    as [e H | v e w1 H Hrun | v response e w1 H Hrun ?
        | v response e w1 H Hrun ? ? | v response errorData w1 H Hrun Hok Hjson ?
        | v response result w1 H Hrun Hok Hjson ?];
    try (apply (f_equal fst) in Hrun; unfold createPayment_fetch in Hrun;
         apply fetchWithRetry_response in Hrun as [i Hi]);
    (eexists; split; [reflexivity |]); split; intro Hs; try discriminate Hs;
    try (split; [apply or_else_truthy; discriminate |]).
  1-4: right; eexists; split; reflexivity.
  - left. exists response, errorData, i. eauto 10.
  - exists response, result, i. eauto 10.
Qed.

(** C9. For an input the payment-request schema accepts, the request body
    has [payment_due_date] equal to [expiredTime] when the caller gives
    one and to 60 otherwise, [payment_method_types] equal to the caller's
    list when there is one and to the default list, of 18 entries,
    otherwise, and the customer id equal to [customerEmail] when it is not
    empty and to ["GUEST-"] followed by the first 8 characters of the
    request id when it is. That body, as [JSON.stringify] prints it, is
    the body of every request the call sends, between one and four. *)
Theorem requestBody_defaults (d v : DokuPaymentRequest) (rid : string) :
  PaymentRequestSchema_parse d = Normal v ->
  payment_due_date (payment (requestBody d v rid))
  = match expiredTime d with
    | Some minutes => minutes
    | None => number_of_Z 60
    end
  /\ payment_method_types (payment (requestBody d v rid))
     = match paymentMethodTypes d with
       | Some types => types
       | None => defaultPaymentMethods
       end
  /\ List.length defaultPaymentMethods = 18%nat
  /\ customer_id (customer (requestBody d v rid))
     = (if (customerEmail d =? "")%string
        then ("GUEST-" ++ slice0 8 rid)%string
        else customerEmail d)
  /\ (forall self now w, exists k options,
        (1 <= k <= 4)%nat
        /\ req_body options = JSON_stringify (requestBody d v rid)
        /\ sent (snd (createPayment self d rid now w))
           = sent w ++ repeat ((baseUrl self ++ "/checkout/v1/payment")%string, options) k).
Proof.
  intro H. pose proof (PaymentRequestSchema_parse_Normal d v H) as [-> _].
  split; [| split; [| split; [| split]]].
  - cbn [requestBody payment payment_due_date].
    destruct (expiredTime d) as [n |] eqn:Hn; [| reflexivity].
    now rewrite (positive_truthy n (accepted_expiredTime d d n H Hn)).
  - reflexivity.
  - reflexivity.
  - cbn [requestBody customer customer_id].
    now destruct (customerEmail d =? "")%string.
  - intros self now w.
    destruct (createPayment_sent self d rid now w) as [[_ [e He]] | (v & Hv & ->)];
      [congruence |].
    assert (v = d) as -> by congruence.
    unfold createPayment_fetch.
    match goal with |- context [fetchWithRetry ?u ?o 3 w] =>
      destruct (fetchWithRetry_world u o 3 w) as (_ & _ & k & Hk & ->);
      exists k, o end.
    repeat split; lia.
Qed.

End Payment.


(** C9 on the payment of the repository's tests. *)
Lemma requestBody_defaults_witness :
  PaymentRequestSchema_parse (test_payment "INV-123") = Normal (test_payment "INV-123")
  /\ payment_due_date
       (payment (requestBody (test_payment "INV-123") (test_payment "INV-123") test_uuid))
     = number_of_Z 60
  /\ customer_id
       (customer (requestBody (test_payment "INV-123") (test_payment "INV-123") test_uuid))
     = "john@example.com".
Proof.
  assert (H : PaymentRequestSchema_parse (test_payment "INV-123")
              = Normal (test_payment "INV-123")) by reflexivity.
  refine (conj H _).
  destruct (requestBody_defaults (test_payment "INV-123") (test_payment "INV-123")
              test_uuid H) as (Hdue & _ & _ & Hid & _).
  split; [exact Hdue | exact Hid].
Defined.

(* ===================================================================== *)
(** ** The repository's tests, and two more runs *)
(* ===================================================================== *)

(** The constructor on the test configuration, on an empty client id and
    on a flag that is a string. *)
Example test_constructor :
  constructor test_config = Normal test_client
  /\ constructor {| in_clientId := Some (JStr ""); in_secretKey := Some (JStr "k");
                    in_isProduction := Some (JBool true) |}
     = Throw (ZodError [mkIssue too_small "clientId" (Some "Client ID is required")])
  /\ constructor {| in_clientId := Some (JStr "id"); in_secretKey := Some (JStr "k");
                    in_isProduction := Some (JStr "true") |}
     = Throw (ZodError [mkIssue invalid_type "isProduction" None]).
Proof. repeat split. Qed.

(** The reference functions on the test vectors of FIPS 180-4, RFC 4231
    and RFC 4648. *)
Example SHA256_abc :
  Reference.hex (SHA256 "abc")
  = "ba7816bf8f01cfea414140de5dae2223b00361a396177a9cb410ff61f20015ad".
Proof. vm_compute. reflexivity. Qed.

Example SHA256_two_blocks :
  Reference.hex (SHA256 "abcdbcdecdefdefgefghfghighijhijkijkljklmklmnlmnomnopnopq")
  = "248d6a61d20638b8e5c026930c3e6039a33ce45964ff2167f6ecedd419db06c1".
Proof. vm_compute. reflexivity. Qed.

Example HmacSHA256_rfc4231_case2 :
  Reference.hex (HmacSHA256 "what do ya want for nothing?" "Jefe")
  = "5bdcc146bf60754e6a042426089575c75a003f089d2739839dec58b964ec3843".
Proof. vm_compute. reflexivity. Qed.

Example Base64_rfc4648 :
  map (fun s => Base64_stringify (Reference.utf8 s)) ["f"; "fo"; "foo"; "foobar"]
  = ["Zg=="; "Zm8="; "Zm9v"; "Zm9vYmFy"].
Proof. vm_compute. reflexivity. Qed.

(** "should return false if signature does not match", "... if client ID
    mismatch" and "... if missing headers". *)
Example test_validateSignature_rejects :
  validateSignature test_client "{}"
    {| signature := Some "HMACSHA256=invalid-signature";
       timestamp := Some "2023-01-01T00:00:00Z"; requestId := Some "req-123";
       inbound_clientId := Some "TEST-CLIENT-ID" |} "/api/callback" = false
  /\ validateSignature test_client "{}"
       {| signature := Some "some-sig";
          timestamp := Some "2023-01-01T00:00:00Z"; requestId := Some "req-123";
          inbound_clientId := Some "WRONG-CLIENT-ID" |} "/api/callback" = false
  /\ validateSignature test_client "{}"
       {| signature := Some "some-sig";
          timestamp := None; requestId := Some "req-123";
          inbound_clientId := Some "TEST-CLIENT-ID" |} "/api/callback" = false.
Proof. vm_compute. repeat split. Qed.

(** "should fail validation for invalid email": nothing is sent, and the
    result carries the message of the [ZodError]. *)
Example test_invalid_email :
  let d := {| orderId := "INV-123"; amount := number_of_Z 10000;
              customerName := "John Doe"; customerEmail := "invalid-email";
              customerPhone := "08123456789"; description := None;
              returnUrl := "https://example.com/callback";
              expiredTime := None; paymentMethodTypes := None |} in
  let issues := [mkIssue invalid_string "customerEmail" (Some "Invalid email address")] in
  let run := createPayment test_client d test_uuid test_now (mock [] network_error) in
  fst run = Normal (failure (Some (JStr (ZodError_message issues)))
                            (DetailsThrown (ZodError issues)))
  /\ fetch_calls (snd run) = 0%nat.
Proof. vm_compute. split; reflexivity. Qed.

(** "should retry on 500 errors and eventually succeed": three calls. *)
Example test_retry_then_success :
  let run := createPayment test_client (test_payment "INV-RETRY") test_uuid test_now
               (mock [respond 500 (JObj []); respond 502 (JObj []);
                      respond 200 (payment_created "INV-RETRY")] network_error) in
  (exists r, fst run = Normal r /\ success r = true
             /\ invoiceNumber r = Some (JStr "INV-RETRY"))
  /\ fetch_calls (snd run) = 3%nat
  /\ waited_ms (snd run) = 2000.
Proof. vm_compute. repeat split. eexists. repeat split. Qed.

(** "should handle API errors correctly": a 400 is not retried. *)
Example test_api_error :
  let run := createPayment test_client (test_payment "INV-FAIL") test_uuid test_now
               (mock [respond 400 (JObj [("error",
                                          JObj [("message", JStr "Invalid Request")])])]
                  network_error) in
  (exists r, fst run = Normal r /\ success r = false
             /\ message r = Some (JStr "Invalid Request"))
  /\ fetch_calls (snd run) = 1%nat.
Proof. vm_compute. repeat split. eexists. repeat split. Qed.

(** C6, at the input of the test "should retry on network errors and fail
    after max retries". The transport rejects every call with
    [new Error("Network Error")]: [fetch] is called four times, and the
    result carries the message of that error, ["Network Error"], where the
    test expects ["Internal server error"]. *)
Theorem createPayment_network_error_message :
  fst (createPayment test_client (test_payment "INV-NET-FAIL") test_uuid test_now
         (mock [] network_error))
  = Normal (failure (Some (JStr "Network Error"))
                    (DetailsThrown (ErrorObject "Error" "Network Error")))
  /\ fetch_calls
       (snd (createPayment test_client (test_payment "INV-NET-FAIL") test_uuid test_now
               (mock [] network_error))) = 4%nat.
Proof. vm_compute. split; reflexivity. Qed.

(** C7 fails on an ok response whose body has no payment URL: the provider
    answers 200 with the body [{}], and the result has [success] true with
    neither [paymentUrl] nor [invoiceNumber]. *)
Lemma createPayment_success_without_url :
  fst (createPayment test_client (test_payment "INV-1") test_uuid test_now
         (mock [respond 200 (JObj [])] network_error))
  = Normal {| success := true; paymentUrl := None; invoiceNumber := None;
              response_amount := None; message := None; details := None |}.
Proof. vm_compute. reflexivity. Qed.

(* ===================================================================== *)
(** ** Sensitivity of the signature *)
(* ===================================================================== *)

Section Sensitivity.
Context {crypto : CryptoJS}.

Lemma componentSignature_flat (c r p d t : string) :
  componentSignature c r p d t
  = ("Client-Id:" ++ c ++ LF ++ "Request-Id:" ++ r ++ LF
     ++ "Request-Timestamp:" ++ t ++ LF ++ "Request-Target:" ++ p
     ++ digest_line d)%string.
Proof.
  unfold componentSignature, digest_line.
  destruct (d =? "")%string; cbn [negb];
    rewrite ?append_empty_r, !append_assoc; reflexivity.
Qed.

Lemma digest_line_inj (d d' : string) : digest_line d = digest_line d' -> d = d'.
Proof.
  unfold digest_line.
  destruct (String.eqb_spec d ""), (String.eqb_spec d' ""); subst;
    try reflexivity; try discriminate.
  intro H. now do 2 apply append_cancel_l in H.
Qed.

(** X21. Two inputs of [generateSignature] that differ in one of the five
    canonical fields and agree on the others sign different strings; in
    particular two bodies with different digests do. Two signatures under
    one key are equal exactly when the Base64 texts of the two MACs are: two
    such inputs have one signature only where HMAC-SHA256, or its Base64
    text, collides. *)
Theorem componentSignature_sensitive (c c' r r' t t' p p' d d' k : string) :
  (c <> c' -> componentSignature c r p d t <> componentSignature c' r p d t)
  /\ (r <> r' -> componentSignature c r p d t <> componentSignature c r' p d t)
  /\ (t <> t' -> componentSignature c r p d t <> componentSignature c r p d t')
  /\ (p <> p' -> componentSignature c r p d t <> componentSignature c r p' d t)
  /\ (d <> d' -> componentSignature c r p d t <> componentSignature c r p d' t)
  /\ (forall body body',
      generateDigest body <> generateDigest body' ->
      componentSignature c r p (generateDigest body) t
      <> componentSignature c r p (generateDigest body') t)
  /\ (generateSignature c r p d k t = generateSignature c' r' p' d' k t'
      <-> Base64_stringify (HmacSHA256 (componentSignature c r p d t) k)
          = Base64_stringify (HmacSHA256 (componentSignature c' r' p' d' t') k)).
Proof.
  rewrite !componentSignature_flat.
  repeat split.
  - intros Hne H. apply Hne. apply append_cancel_l in H.
    now apply append_cancel_r in H.
  - intros Hne H. apply Hne. do 4 apply append_cancel_l in H.
    now apply append_cancel_r in H.
  - intros Hne H. apply Hne. do 7 apply append_cancel_l in H.
    now apply append_cancel_r in H.
  - intros Hne H. apply Hne. do 10 apply append_cancel_l in H.
    now apply append_cancel_r in H.
  - intros Hne H. apply Hne. do 11 apply append_cancel_l in H.
    now apply digest_line_inj.
  - intros body body' Hne H. apply Hne. rewrite !componentSignature_flat in H.
    do 11 apply append_cancel_l in H.
    now apply digest_line_inj.
  - unfold generateSignature. rewrite !componentSignature_flat.
    apply append_cancel_l.
  - unfold generateSignature. rewrite !componentSignature_flat.
    now intros ->.
Qed.

End Sensitivity.

(** A MAC has 32 bytes, so the signatures are finitely many. *)
Lemma all_bytes_complete (b : byte) : In b Reference.all_bytes.
Proof.
  unfold Reference.all_bytes. apply in_flat_map.
  exists (N.to_nat (Byte.to_N b)). split.
  - apply in_seq. pose proof (Byte.to_N_bounded b). lia.
  - rewrite N2Nat.id, Byte.of_to_N. now left.
Qed.

Lemma byte_lists_complete (l : list byte) :
  In l (Reference.byte_lists (List.length l)).
Proof.
  induction l as [|b l IH]; [now left |].
  cbn [List.length Reference.byte_lists]. apply in_flat_map.
  exists l. split; [exact IH |].
  exact (in_map (fun x => x :: l) _ b (all_bytes_complete b)).
Qed.

Lemma hash_bytes_length (H : Reference.Hash) :
  List.length (Reference.hash_bytes H) = 32%nat.
Proof. reflexivity. Qed.

Lemma HmacSHA256_length (message key : string) :
  List.length (HmacSHA256 (CryptoJS := crypto_js) message key) = 32%nat.
Proof. apply hash_bytes_length. Qed.

Lemma replicate_length (n : nat) (c : ascii) :
  String.length (Reference.replicate n c) = n.
Proof. induction n as [|n IH]; [reflexivity | cbn; now rewrite IH]. Qed.

(** No function from the natural numbers into a finite list is injective. *)
Lemma no_injection_into_list {A : Type} (f : nat -> A) (L : list A) :
  (forall n, In (f n) L) -> ~ (forall n m, n <> m -> f n <> f m).
Proof.
  intros Hin Hinj.
  assert (Hnodup : forall k, NoDup (map f (seq 0 k))).
  { intro k. induction k as [|k IH]; [constructor |].
    rewrite seq_S, map_app. cbn [map Nat.add].
    apply NoDup_app; [exact IH | repeat constructor; intros [] |].
    intros x Hx [<- | []]. apply in_map_iff in Hx as (m & Hm & Hseq).
    apply in_seq in Hseq. apply (Hinj m k); [lia | exact Hm]. }
  assert (Hincl : incl (map f (seq 0 (S (List.length L)))) L).
  { intros x Hx. apply in_map_iff in Hx as (m & <- & _). apply Hin. }
  pose proof (NoDup_incl_length (Hnodup (S (List.length L))) Hincl) as Hlen.
  rewrite length_map, length_seq in Hlen. lia.
Qed.

(** That the signatures themselves differ is the collision resistance of
    the hash, which is not a statement about all inputs: with MACs of 32
    bytes, whatever the hash functions are, some two inputs that differ in
    the digest alone have one signature. The argument counts, and shows no
    such pair. *)
Lemma macs_of_32_bytes_collide (crypto : CryptoJS) :
  (forall message key, List.length (HmacSHA256 message key) = 32%nat) ->
  ~ (forall c r p k t d d' : string,
       d <> d' -> generateSignature c r p d k t <> generateSignature c r p d' k t).
Proof.
  intros Hlen Hclaim.
  apply (no_injection_into_list
           (fun n => generateSignature "" "" "" (Reference.replicate n "a") "" "")
           (map (fun mac => ("HMACSHA256=" ++ Base64_stringify mac)%string)
                (Reference.byte_lists 32))).
  - intro n. unfold generateSignature. apply in_map_iff.
    eexists. split; [reflexivity |].
    rewrite <- (Hlen (componentSignature "" "" "" (Reference.replicate n "a") "") "").
    apply byte_lists_complete.
  - intros n m Hnm. apply Hclaim. intro H.
    apply (f_equal String.length) in H. rewrite !replicate_length in H. lia.
Qed.

(** So it is with SHA-256 and HMAC as the standards define them. *)
Lemma signature_collision_exists :
  ~ (forall c r p k t d d' : string,
       d <> d' ->
       generateSignature (crypto := crypto_js) c r p d k t
       <> generateSignature (crypto := crypto_js) c r p d' k t).
Proof. exact (macs_of_32_bytes_collide crypto_js HmacSHA256_length). Qed.

(* ===================================================================== *)
(** ** The retrying transport, in full *)
(* ===================================================================== *)

Section Retry.
Variables (url : string) (options : RequestInit).

(** A run of [fetchWithRetry] with budget [n]: it stops at the first
    outcome that is not retryable, the [k]-th, or at the [n]-th when all
    before are retryable. The result is that outcome, and the world has the
    same request sent [k + 1] times and [k] waits of a second. *)
Lemma fetchWithRetry_run (n : nat) (w : World) :
  exists k,
    (k <= n)%nat
    /\ (forall j, (j < k)%nat ->
        retryable (remote w (fetch_calls w + j)%nat url options) = true)
    /\ ((k < n)%nat ->
        retryable (remote w (fetch_calls w + k)%nat url options) = false)
    /\ fetchWithRetry url options n w
       = (remote w (fetch_calls w + k)%nat url options,
          {| remote := remote w;
             sent := sent w ++ repeat (url, options) (S k);
             waited_ms := waited_ms w + 1000 * Z.of_nat k;
             console := console w |}).
Proof.
  revert w. induction n as [|n IH]; intro w.
  - exists 0%nat. rewrite fetchWithRetry_O. unfold fetch.
    rewrite Nat.add_0_r, Z.mul_0_r, Z.add_0_r.
    repeat split; [lia | intros j Hj; lia | intro H; lia].
  - rewrite fetchWithRetry_S. unfold fetch.
    assert (Hretry :
      retryable (remote w (fetch_calls w) url options) = true ->
      exists k,
        (k <= S n)%nat
        /\ (forall j, (j < k)%nat ->
            retryable (remote w (fetch_calls w + j)%nat url options) = true)
        /\ ((k < S n)%nat ->
            retryable (remote w (fetch_calls w + k)%nat url options) = false)
        /\ fetchWithRetry url options n
             (snd (setTimeout 1000
                     {| remote := remote w; sent := sent w ++ [(url, options)];
                        waited_ms := waited_ms w; console := console w |}))
           = (remote w (fetch_calls w + k)%nat url options,
              {| remote := remote w;
                 sent := sent w ++ repeat (url, options) (S k);
                 waited_ms := waited_ms w + 1000 * Z.of_nat k;
                 console := console w |})).
    { intro Hfirst.
      match goal with |- context [fetchWithRetry _ _ n ?w'] =>
        destruct (IH w') as (k & Hk & Hbefore & Hstop & Hrun);
        assert (Hcalls : fetch_calls w' = S (fetch_calls w))
          by (unfold fetch_calls; cbn [setTimeout snd sent];
              rewrite length_app; cbn [List.length]; lia)
      end.
      cbn [setTimeout snd remote sent waited_ms console] in *.
      rewrite Hcalls in *.
      exists (S k). repeat split.
      - lia.
      - intros [|j] Hj; [now rewrite Nat.add_0_r |].
        replace (fetch_calls w + S j)%nat with (S (fetch_calls w) + j)%nat by lia.
        apply Hbefore. lia.
      - intro H.
        replace (fetch_calls w + S k)%nat with (S (fetch_calls w) + k)%nat by lia.
        apply Hstop. lia.
      - rewrite Hrun.
        replace (fetch_calls w + S k)%nat with (S (fetch_calls w) + k)%nat by lia.
        f_equal. f_equal.
        + rewrite <- app_assoc. reflexivity.
        + lia. }
    destruct (remote w (fetch_calls w) url options) as [response | error] eqn:E.
    + destruct (ok response || negb (500 <=? status response)) eqn:Hterminal.
      * exists 0%nat. rewrite Nat.add_0_r, Z.mul_0_r, Z.add_0_r, E.
        repeat split; [lia | intros j Hj; lia |].
        intros _. cbn [retryable].
        destruct (ok response), (500 <=? status response);
          cbn in Hterminal |- *; congruence.
      * apply Hretry. cbn [retryable].
        destruct (ok response), (500 <=? status response);
          cbn in Hterminal |- *; congruence.
    + now apply Hretry.
Qed.

(** X1. [fetchWithRetry] returns the outcome of its last call of [fetch].
    Every earlier call ended in a rejection or in a response that was not
    ok with status 500 or more. The last call has such an outcome only if
    the budget is used up: otherwise it is the first ok response, or the
    first response with a status below 500. *)
Theorem fetchWithRetry_stops_at_first_terminal (n : nat) (w : World) :
  exists k,
    (k <= n)%nat
    /\ fetch_calls (snd (fetchWithRetry url options n w)) = (fetch_calls w + k + 1)%nat
    /\ fst (fetchWithRetry url options n w)
       = remote w (fetch_calls w + k)%nat url options
    /\ (forall j, (j < k)%nat ->
        retryable (remote w (fetch_calls w + j)%nat url options) = true)
    /\ (retryable (remote w (fetch_calls w + k)%nat url options) = true -> k = n).
Proof.
  destruct (fetchWithRetry_run n w) as (k & Hk & Hbefore & Hstop & Hrun).
  exists k. rewrite Hrun. cbn [fst snd]. repeat split; try assumption.
  - unfold fetch_calls. cbn [sent]. rewrite length_app, repeat_length. lia.
  - intro H. destruct (Nat.eq_dec k n) as [E | E]; [exact E |].
    rewrite Hstop in H by lia. discriminate.
Qed.

(** X2. The waits of a run add up to one second for each call of [fetch]
    after the first: 1000 ms times the number of calls less one, and so at
    most 1000 ms times the budget. Every call sends the request it was
    given, unchanged. Nothing is logged and the transport is left as it
    was. *)
Theorem fetchWithRetry_constant_backoff (n : nat) (w : World) :
  waited_ms (snd (fetchWithRetry url options n w))
  = waited_ms w
    + 1000 * (Z.of_nat (fetch_calls (snd (fetchWithRetry url options n w)))
              - Z.of_nat (fetch_calls w) - 1)
  /\ waited_ms (snd (fetchWithRetry url options n w)) <= waited_ms w + 1000 * Z.of_nat n
  /\ sent (snd (fetchWithRetry url options n w))
     = sent w ++ repeat (url, options)
                   (fetch_calls (snd (fetchWithRetry url options n w)) - fetch_calls w)
  /\ console (snd (fetchWithRetry url options n w)) = console w
  /\ remote (snd (fetchWithRetry url options n w)) = remote w.
Proof.
  destruct (fetchWithRetry_run n w) as (k & Hk & _ & _ & Hrun).
  rewrite Hrun. cbn [snd waited_ms sent console remote]. unfold fetch_calls.
  cbn [sent]. rewrite length_app, repeat_length.
  repeat split; try lia.
  f_equal. f_equal. lia.
Qed.

End Retry.

(* ===================================================================== *)
(** ** createPayment, path by path *)
(* ===================================================================== *)

Lemma append_Z_not_empty (s : string) : (s ++ "Z")%string <> "".
Proof. destruct s; discriminate. Qed.

Section PaymentPaths.
Context {crypto : CryptoJS} {zod : ZodLib} {jsontext : JSONText}.
Variables (self : DokuClient) (d : DokuPaymentRequest) (rid now : string) (w : World).

(** After the input is accepted, [createPayment] is its run of
    [fetchWithRetry] followed by the reading of the response. *)
Lemma createPayment_continues (v : DokuPaymentRequest) :
  PaymentRequestSchema_parse d = Normal v ->
  createPayment self d rid now w
  = match createPayment_fetch self d rid now w v with
    | (Throw e, w1) => createPayment_catch e w1
    | (Normal response, w1) =>
        match json response with
        | Throw e => createPayment_catch e w1
        | Normal body =>
            match get_member body (if ok response then "response" else "error") with
            | Throw e => createPayment_catch e w1
            | Normal _ =>
                if ok response
                then (Normal {| success := true;
                                paymentUrl := nested_or_flat body "payment" "url";
                                invoiceNumber :=
                                  nested_or_flat body "order" "invoice_number";
                                response_amount := nested_or_flat body "order" "amount";
                                message := None;
                                details := None |}, w1)
                else (Normal (failure
                                (or_else (opt_member (member body "error") "message")
                                         (Some (JStr "Failed to create payment")))
                                (DetailsJson body)), w1)
            end
        end
    end.
Proof.
  intro Hparse. unfold createPayment, try_catch, bind, lift, ret. rewrite Hparse.
  fold (createPayment_fetch self d rid now w v).
  destruct (createPayment_fetch self d rid now w v) as [[response | e] w1];
    [| reflexivity].
  destruct (ok response); cbn [negb];
    (destruct (json response) as [body | e]; [| reflexivity]);
    destruct body; reflexivity.
Qed.

(** When the first call of [fetch] gives a response that is not retried,
    the run is that one call. *)
Lemma createPayment_fetch_first (v : DokuPaymentRequest) (response : Response) :
  (forall u o, remote w (fetch_calls w) u o = Normal response) ->
  retryable (Normal response) = false ->
  exists w1,
    createPayment_fetch self d rid now w v = (Normal response, w1)
    /\ fetch_calls w1 = S (fetch_calls w)
    /\ waited_ms w1 = waited_ms w
    /\ console w1 = console w.
Proof.
  intros Hfirst Hterminal. unfold createPayment_fetch.
  match goal with |- context [fetchWithRetry ?u ?o 3 w] =>
    destruct (fetchWithRetry_run u o 3 w) as (k & Hk & Hbefore & _ & Hrun) end.
  destruct k as [|k].
  - rewrite Hrun, Nat.add_0_r, Hfirst. eexists. split; [reflexivity |].
    unfold fetch_calls. cbn [sent waited_ms console].
    rewrite length_app. cbn [List.length repeat]. repeat split; lia.
  - specialize (Hbefore 0%nat ltac:(lia)).
    rewrite Nat.add_0_r, Hfirst, Hterminal in Hbefore. discriminate.
Qed.

(** When every call of [fetch] gives one response that is retried, the run
    is four calls and three waits, and ends in that response. *)
Lemma createPayment_fetch_exhausted (v : DokuPaymentRequest) (response : Response) :
  (forall i u o, remote w i u o = Normal response) ->
  retryable (Normal response) = true ->
  exists w1,
    createPayment_fetch self d rid now w v = (Normal response, w1)
    /\ fetch_calls w1 = (fetch_calls w + 4)%nat
    /\ waited_ms w1 = waited_ms w + 3000
    /\ console w1 = console w.
Proof.
  intros Hall Hretry. unfold createPayment_fetch.
  match goal with |- context [fetchWithRetry ?u ?o 3 w] =>
    destruct (fetchWithRetry_run u o 3 w) as (k & Hk & _ & Hstop & Hrun) end.
  assert (k = 3%nat) as ->.
  { destruct (Nat.eq_dec k 3) as [E | E]; [exact E |].
    rewrite Hall, Hretry in Hstop. discriminate Hstop. lia. }
  rewrite Hrun, Hall. eexists. split; [reflexivity |].
  unfold fetch_calls. cbn [sent waited_ms console].
  rewrite length_app, repeat_length. repeat split; lia.
Qed.

(** X3. An input the schema refuses never reaches the transport: nothing is
    sent and nothing is waited for, one line is logged, and the result is a
    failure whose [details] is the [ZodError] with the issues of the
    input. *)
Theorem createPayment_refuses_invalid_input :
  PaymentRequestSchema_issues d <> [] ->
  exists r,
    fst (createPayment self d rid now w) = Normal r
    /\ success r = false
    /\ details r = Some (DetailsThrown (ZodError (PaymentRequestSchema_issues d)))
    /\ paymentUrl r = None
    /\ sent (snd (createPayment self d rid now w)) = sent w
    /\ waited_ms (snd (createPayment self d rid now w)) = waited_ms w
    /\ List.length (console (snd (createPayment self d rid now w)))
       = S (List.length (console w)).
Proof.
  intro H. unfold createPayment, try_catch, bind, lift, PaymentRequestSchema_parse.
  destruct (PaymentRequestSchema_issues d) as [|i issues]; [congruence |].
  eexists. split; [reflexivity |].
  cbn [failure success details paymentUrl snd createPayment_catch bind console_error
       ret sent waited_ms console].
  rewrite length_app. cbn [List.length]. repeat split. lia.
Qed.

(** X4. A response that is not ok with a status below 500, on the first
    call, is not retried: [createPayment] calls [fetch] once, waits for
    nothing, logs nothing, and returns a failure with the provider's
    [error.message] when it is truthy and ["Failed to create payment"]
    otherwise, and with the parsed body as [details]. *)
Theorem createPayment_provider_error
    (v : DokuPaymentRequest) (response : Response) (errorData : Json) :
  PaymentRequestSchema_parse d = Normal v ->
  (forall u o, remote w (fetch_calls w) u o = Normal response) ->
  ok response = false ->
  status response < 500 ->
  json response = Normal errorData ->
  errorData <> JNull ->
  fst (createPayment self d rid now w)
  = Normal (failure
              (or_else (opt_member (member errorData "error") "message")
                       (Some (JStr "Failed to create payment")))
              (DetailsJson errorData))
  /\ fetch_calls (snd (createPayment self d rid now w)) = S (fetch_calls w)
  /\ waited_ms (snd (createPayment self d rid now w)) = waited_ms w
  /\ console (snd (createPayment self d rid now w)) = console w.
Proof.
  intros Hparse Hfirst Hok Hstatus Hjson Hnull.
  destruct (createPayment_fetch_first v response Hfirst) as (w1 & Hrun & Hc & Hw & Hl).
  { cbn [retryable]. rewrite Hok. cbn [negb andb]. apply Z.leb_gt. lia. }
  rewrite (createPayment_continues v Hparse), Hrun, Hjson, Hok.
  destruct errorData; try congruence; cbn [get_member fst snd]; auto.
Qed.

(** X5. An ok response on the first call ends the run at once:
    [createPayment] calls [fetch] once, waits for nothing, and returns a
    success whose fields are read from the body, under [response] first and
    at top level otherwise. *)
Theorem createPayment_created
    (v : DokuPaymentRequest) (response : Response) (result : Json) :
  PaymentRequestSchema_parse d = Normal v ->
  (forall u o, remote w (fetch_calls w) u o = Normal response) ->
  ok response = true ->
  json response = Normal result ->
  result <> JNull ->
  fst (createPayment self d rid now w)
  = Normal {| success := true;
              paymentUrl :=
                or_else (opt_member (opt_member (member result "response") "payment") "url")
                        (opt_member (member result "payment") "url");
              invoiceNumber :=
                or_else (opt_member (opt_member (member result "response") "order")
                           "invoice_number")
                        (opt_member (member result "order") "invoice_number");
              response_amount :=
                or_else (opt_member (opt_member (member result "response") "order")
                           "amount")
                        (opt_member (member result "order") "amount");
              message := None;
              details := None |}
  /\ fetch_calls (snd (createPayment self d rid now w)) = S (fetch_calls w)
  /\ waited_ms (snd (createPayment self d rid now w)) = waited_ms w
  /\ console (snd (createPayment self d rid now w)) = console w.
Proof.
  intros Hparse Hfirst Hok Hjson Hnull.
  destruct (createPayment_fetch_first v response Hfirst) as (w1 & Hrun & Hc & Hw & Hl).
  { cbn [retryable]. now rewrite Hok. }
  rewrite (createPayment_continues v Hparse), Hrun, Hjson, Hok.
  destruct result; try congruence; cbn [get_member fst snd]; auto.
Qed.

(** X6. A provider that answers every call with one response that is not
    ok, with status 500 or more: [createPayment] calls [fetch] four times,
    waits three seconds in all, and then treats the last response as a
    provider error, with the provider's [error.message] or ["Failed to
    create payment"], and not as an exception. Nothing is logged. *)
Theorem createPayment_persistent_server_error
    (v : DokuPaymentRequest) (response : Response) (errorData : Json) :
  PaymentRequestSchema_parse d = Normal v ->
  (forall i u o, remote w i u o = Normal response) ->
  ok response = false ->
  500 <= status response ->
  json response = Normal errorData ->
  errorData <> JNull ->
  fst (createPayment self d rid now w)
  = Normal (failure
              (or_else (opt_member (member errorData "error") "message")
                       (Some (JStr "Failed to create payment")))
              (DetailsJson errorData))
  /\ fetch_calls (snd (createPayment self d rid now w)) = (fetch_calls w + 4)%nat
  /\ waited_ms (snd (createPayment self d rid now w)) = waited_ms w + 3000
  /\ console (snd (createPayment self d rid now w)) = console w.
Proof.
  intros Hparse Hall Hok Hstatus Hjson Hnull.
  destruct (createPayment_fetch_exhausted v response Hall) as (w1 & Hrun & Hc & Hw & Hl).
  { cbn [retryable]. rewrite Hok. cbn [negb andb]. apply Z.leb_le. lia. }
  rewrite (createPayment_continues v Hparse), Hrun, Hjson, Hok.
  destruct errorData; try congruence; cbn [get_member fst snd]; auto.
Qed.

(** X7. A response whose body cannot be read is a failure, also when the
    response is ok: when [json()] rejects, the result is a failure with the
    thrown value as [details] and its message, or ["Internal server
    error"], as [message]; when the body is [null], the result is a failure
    whose [details] is a [TypeError]. *)
Theorem createPayment_unreadable_body
    (v : DokuPaymentRequest) (response : Response) :
  PaymentRequestSchema_parse d = Normal v ->
  (forall u o, remote w (fetch_calls w) u o = Normal response) ->
  retryable (Normal response) = false ->
  (forall e, json response = Throw e ->
     fst (createPayment self d rid now w)
     = Normal (failure (or_else (error_message e) (Some (JStr "Internal server error")))
                       (DetailsThrown e)))
  /\ (json response = Normal JNull ->
      exists text,
        fst (createPayment self d rid now w)
        = Normal (failure (or_else (Some (JStr text))
                                   (Some (JStr "Internal server error")))
                          (DetailsThrown (ErrorObject "TypeError" text)))).
Proof.
  intros Hparse Hfirst Hterminal.
  destruct (createPayment_fetch_first v response Hfirst Hterminal)
    as (w1 & Hrun & _).
  rewrite (createPayment_continues v Hparse), Hrun.
  split.
  - intros e ->. reflexivity.
  - intros ->. cbn [get_member]. eexists. reflexivity.
Qed.

End PaymentPaths.

(* ===================================================================== *)
(** ** The requests of createPayment and the verifier *)
(* ===================================================================== *)

Section Requests.
Context {crypto : CryptoJS}.

(** On four values that are there and not empty, with the configured
    client id, the verifier compares the computed signature with the
    received one. *)
Lemma validateSignature_compares (self : DokuClient) (body sig ts rid target : string) :
  sig <> "" -> ts <> "" -> rid <> "" -> clientId (config self) <> "" ->
  validateSignature self body
    {| signature := Some sig; timestamp := Some ts; requestId := Some rid;
       inbound_clientId := Some (clientId (config self)) |} target
  = (generateSignature (clientId (config self)) rid target (generateDigest body)
       (secretKey (config self)) ts =? sig)%string.
Proof.
  intros Hsig Hts Hrid Hcid. unfold validateSignature.
  cbn [signature timestamp requestId inbound_clientId].
  rewrite !eqb_empty_false by assumption. cbn [orb].
  now rewrite String.eqb_refl.
Qed.

Lemma validateSignature_own_headers (self : DokuClient) (body rid ts target : string) :
  clientId (config self) <> "" -> rid <> "" -> ts <> "" ->
  validateSignature self body
    (inbound_of (generateHeaders self rid ts target body)) target = true.
Proof.
  intros Hcid Hrid Hts. unfold inbound_of, generateHeaders.
  cbn [h_Signature h_Request_Timestamp h_Request_Id h_Client_Id].
  rewrite validateSignature_compares; try assumption.
  - apply String.eqb_refl.
  - apply generateSignature_not_empty.
Qed.

(** X8. The headers [generateHeaders] makes for a body are accepted by
    [validateSignature] of the same client, for that body and that target,
    when the client is one the constructor accepted and the request id and
    the timestamp are not empty. The [Client-Id], [Request-Id] and
    [Request-Timestamp] headers are the values given, and the content type
    is JSON. *)
Theorem generateHeaders_verify {zod : ZodLib}
    (cfg : ConfigInput) (self : DokuClient) (body rid ts target : string) :
  constructor cfg = Normal self ->
  rid <> "" -> ts <> "" ->
  validateSignature self body
    (inbound_of (generateHeaders self rid ts target body)) target = true
  /\ h_Client_Id (generateHeaders self rid ts target body) = clientId (config self)
  /\ h_Request_Id (generateHeaders self rid ts target body) = rid
  /\ h_Request_Timestamp (generateHeaders self rid ts target body) = ts
  /\ h_Content_Type (generateHeaders self rid ts target body) = "application/json".
Proof.
  intros Hnew Hrid Hts.
  apply constructor_Normal in Hnew as [Hcfg _].
  apply ConfigSchema_parse_Normal in Hcfg as (_ & _ & _ & Hid & _).
  split; [now apply validateSignature_own_headers | repeat split].
Qed.

(** X9. What [validateSignature] accepts: the four header values are there
    and not empty, the client id is the configured one, and the signature
    is, character for character, the one [generateSignature] computes from
    them, the digest of the body and the secret key. So it starts with
    ["HMACSHA256="], and for one body, target, timestamp and request id at
    most one signature is accepted. *)
Theorem validateSignature_sound
    (self : DokuClient) (body : string) (headers : InboundHeaders) (target : string) :
  validateSignature self body headers target = true ->
  exists sig ts rid,
    headers = {| signature := Some sig; timestamp := Some ts; requestId := Some rid;
                 inbound_clientId := Some (clientId (config self)) |}
    /\ ts <> "" /\ rid <> "" /\ clientId (config self) <> ""
    /\ sig = generateSignature (clientId (config self)) rid target
               (generateDigest body) (secretKey (config self)) ts
    /\ exists mac, sig = ("HMACSHA256=" ++ mac)%string.
Proof.
  unfold validateSignature. destruct headers as [[sig|] [ts|] [rid|] [cid|]];
    cbn [signature timestamp requestId inbound_clientId]; try discriminate.
  destruct (String.eqb_spec sig ""); [discriminate |].
  destruct (String.eqb_spec ts ""); [discriminate |].
  destruct (String.eqb_spec rid ""); [discriminate |].
  destruct (String.eqb_spec cid ""); [discriminate |]. cbn [orb].
  destruct (String.eqb_spec cid (clientId (config self))) as [-> |];
    [| discriminate]. cbn [negb].
  intro H. apply String.eqb_eq in H.
  exists sig, ts, rid. repeat split; try assumption; try congruence.
  rewrite <- H. unfold generateSignature. eauto.
Qed.

(** X10. The canonical string does not mark where a field ends, so a line
    feed inside a field moves text from one field to the next under one
    signature: a target that ends in a [Digest] line, signed with no
    digest, has the signature of the shorter target with that digest; and
    a request id that ends in a [Request-Timestamp] line has the signature
    of the shorter request id with that line at the head of the
    timestamp. *)
Theorem generateSignature_field_boundaries (c r p d k t t' : string) :
  d <> "" ->
  generateSignature c r (p ++ LF ++ "Digest:" ++ d)%string "" k t
  = generateSignature c r p d k t
  /\ generateSignature c (r ++ LF ++ "Request-Timestamp:" ++ t)%string p d k t'
     = generateSignature c r p d k (t ++ LF ++ "Request-Timestamp:" ++ t')%string.
Proof.
  intro Hd. unfold generateSignature. rewrite !componentSignature_flat.
  unfold digest_line. rewrite (eqb_empty_false d Hd). cbn [String.eqb].
  rewrite !append_assoc, ?append_empty_r. split; reflexivity.
Qed.

(** X11. The placeholder [verifyNotificationSignature] accepts nothing, not
    even the signature [validateSignature] accepts: on a client the
    constructor accepted, for a signature made with the client's own id and
    key, [validateSignature] is true and [verifyNotificationSignature] is
    false. *)
Theorem verifyNotificationSignature_rejects_valid {zod : ZodLib}
    (cfg : ConfigInput) (self : DokuClient) (body rid ts target : string) :
  constructor cfg = Normal self ->
  rid <> "" -> ts <> "" ->
  validateSignature self body
    (inbound_of (generateHeaders self rid ts target body)) target = true
  /\ verifyNotificationSignature self body
       (Some (h_Signature (generateHeaders self rid ts target body)))
       (Some ts) (Some rid) = false
  /\ (forall sig ts' rid', verifyNotificationSignature self body sig ts' rid' = false).
Proof.
  intros Hnew Hrid Hts.
  apply constructor_Normal in Hnew as [Hcfg _].
  apply ConfigSchema_parse_Normal in Hcfg as (_ & _ & _ & Hid & _).
  split; [now apply validateSignature_own_headers |].
  split; [| intros sig ts' rid']; unfold verifyNotificationSignature;
    now destruct (_ || _ || _).
Qed.

End Requests.

Section SentRequests.
Context {crypto : CryptoJS} {zod : ZodLib} {jsontext : JSONText}.

(** X12. For a client the constructor accepted and an input the schema
    accepts, every request [createPayment] sends, between one and four, is
    the same: a POST to the production host when [isProduction] is true and
    to the sandbox host when it is false, at [/checkout/v1/payment], with
    the serialized request body, the client id, the request id, the
    timestamp cut to seconds with [Z] after it, and the signature over the
    digest of that body. *)
Theorem createPayment_requests
    (cfg : ConfigInput) (self : DokuClient) (d v : DokuPaymentRequest)
    (rid now : string) (w : World) :
  constructor cfg = Normal self ->
  PaymentRequestSchema_parse d = Normal v ->
  exists k,
    (1 <= k <= 4)%nat
    /\ sent (snd (createPayment self d rid now w))
       = sent w
         ++ repeat
              (((if isProduction (config self)
                 then "https://api.doku.com"
                 else "https://api-sandbox.doku.com") ++ "/checkout/v1/payment")%string,
               {| req_method := "POST";
                  req_headers :=
                    {| h_Content_Type := "application/json";
                       h_Client_Id := clientId (config self);
                       h_Request_Id := rid;
                       h_Request_Timestamp := (slice0 19 now ++ "Z")%string;
                       h_Signature :=
                         generateSignature (clientId (config self)) rid
                           "/checkout/v1/payment"
                           (generateDigest (JSON_stringify (requestBody d v rid)))
                           (secretKey (config self)) (slice0 19 now ++ "Z")%string |};
                  req_body := JSON_stringify (requestBody d v rid) |}) k.
Proof.
  intros Hnew Hparse.
  apply constructor_Normal in Hnew as [Hcfg Hurl].
  apply ConfigSchema_parse_Normal in Hcfg as (_ & _ & Hprod & _).
  rewrite Hprod in Hurl. cbn [truthy truthy_json] in Hurl.
  destruct (createPayment_sent self d rid now w) as [[_ [e He]] | (v' & Hv & ->)];
    [congruence |].
  assert (v' = v) as -> by congruence.
  unfold createPayment_fetch.
  match goal with |- context [fetchWithRetry ?u ?o 3 w] =>
    destruct (fetchWithRetry_world u o 3 w) as (_ & _ & k & Hk & ->) end.
  exists k. split; [lia |]. rewrite Hurl. reflexivity.
Qed.

(** X13. The requests [createPayment] sends are signed as the verifier
    expects: for a client the constructor accepted, an accepted input and a
    request id that is not empty, [validateSignature] of that client
    accepts the headers of each request sent for the body sent and the
    target [/checkout/v1/payment]. *)
Theorem createPayment_requests_verify
    (cfg : ConfigInput) (self : DokuClient) (d v : DokuPaymentRequest)
    (rid now : string) (w : World) :
  constructor cfg = Normal self ->
  PaymentRequestSchema_parse d = Normal v ->
  rid <> "" ->
  exists k url options,
    (1 <= k <= 4)%nat
    /\ sent (snd (createPayment self d rid now w)) = sent w ++ repeat (url, options) k
    /\ req_body options = JSON_stringify (requestBody d v rid)
    /\ validateSignature self (req_body options) (inbound_of (req_headers options))
         "/checkout/v1/payment" = true.
Proof.
  intros Hnew Hparse Hrid.
  apply constructor_Normal in Hnew as [Hcfg _].
  apply ConfigSchema_parse_Normal in Hcfg as (_ & _ & _ & Hid & _).
  destruct (createPayment_sent self d rid now w) as [[_ [e He]] | (v' & Hv & ->)];
    [congruence |].
  assert (v' = v) as -> by congruence.
  unfold createPayment_fetch.
  match goal with |- context [fetchWithRetry ?u ?o 3 w] =>
    destruct (fetchWithRetry_world u o 3 w) as (_ & _ & k & Hk & ->);
    exists k, u, o end.
  split; [lia |]. split; [reflexivity |]. split; [reflexivity |].
  unfold createPayment_options. cbn [req_body req_headers].
  apply validateSignature_own_headers; try assumption.
  apply append_Z_not_empty.
Qed.

End SentRequests.

(* ===================================================================== *)
(** ** The schemas *)
(* ===================================================================== *)

Section Schemas.
Context {zod : ZodLib}.

Lemma string_min1_nil (path msg s : string) : string_min1 path msg s = [] <-> s <> "".
Proof.
  unfold string_min1. destruct (String.eqb_spec s ""); split; congruence.
Qed.

Lemma number_positive_nil (path msg : string) (n : number) :
  number_positive path msg n = [] <-> positive n = true.
Proof.
  unfold number_positive.
  destruct n; try (destruct (positive _); split; congruence).
  cbv [positive zero SFltb SFcompare]. split; discriminate.
Qed.

(** The paths of the issues of one check. *)
Lemma string_min1_paths (path msg s p : string) :
  In p (map issue_path (string_min1 path msg s)) <-> p = path /\ s = "".
Proof.
  unfold string_min1. destruct (String.eqb_spec s ""); cbn; intuition congruence.
Qed.

Lemma number_positive_paths (path msg : string) (n : number) (p : string) :
  In p (map issue_path (number_positive path msg n)) <-> p = path /\ positive n = false.
Proof.
  unfold number_positive.
  destruct n; try (destruct (positive _); cbn; intuition congruence).
  cbv [positive zero SFltb SFcompare]. cbn. intuition congruence.
Qed.

Lemma app_nil_iff {A : Type} (l l' : list A) : l ++ l' = [] <-> l = [] /\ l' = [].
Proof.
  split; [apply app_eq_nil | intros [-> ->]; reflexivity].
Qed.

Lemma PaymentRequestSchema_issues_nil (d : DokuPaymentRequest) :
  PaymentRequestSchema_issues d = []
  <-> orderId d <> ""
      /\ positive (amount d) = true
      /\ customerName d <> ""
      /\ is_email (customerEmail d) = true
      /\ customerPhone d <> ""
      /\ is_url (returnUrl d) = true
      /\ (forall minutes, expiredTime d = Some minutes -> positive minutes = true).
Proof.
  unfold PaymentRequestSchema_issues.
  rewrite !app_nil_iff, !string_min1_nil, number_positive_nil.
  assert (He : (if is_email (customerEmail d) then []
                else [mkIssue invalid_string "customerEmail"
                        (Some "Invalid email address")]) = []
               <-> is_email (customerEmail d) = true)
    by (destruct (is_email _); split; congruence).
  assert (Hu : (if is_url (returnUrl d) then []
                else [mkIssue invalid_string "returnUrl" (Some "Invalid return URL")])
               = []
               <-> is_url (returnUrl d) = true)
    by (destruct (is_url _); split; congruence).
  assert (Hx : optional (number_positive "expiredTime" "Expired time must be positive")
                 (expiredTime d) = []
               <-> (forall minutes, expiredTime d = Some minutes ->
                    positive minutes = true)).
  { destruct (expiredTime d) as [n |]; cbn [optional].
    - rewrite number_positive_nil. split; [intros H m E; congruence | eauto].
    - split; [intros _ m E; discriminate | reflexivity]. }
  rewrite He, Hu, Hx. tauto.
Qed.

(** X14. [PaymentRequestSchema.parse] accepts an input exactly when the
    order id, the customer name and the phone are not empty, the amount is
    positive, the email and the return URL have their formats, and the
    expiry, when given, is positive. What it returns is then the input,
    field for field; otherwise it throws a [ZodError] with at least one
    issue. *)
Theorem PaymentRequestSchema_accepts (d : DokuPaymentRequest) :
  (PaymentRequestSchema_parse d = Normal d
   <-> orderId d <> ""
       /\ positive (amount d) = true
       /\ customerName d <> ""
       /\ is_email (customerEmail d) = true
       /\ customerPhone d <> ""
       /\ is_url (returnUrl d) = true
       /\ (forall minutes, expiredTime d = Some minutes -> positive minutes = true))
  /\ (forall v, PaymentRequestSchema_parse d = Normal v -> v = d)
  /\ (forall e, PaymentRequestSchema_parse d = Throw e ->
      e = ZodError (PaymentRequestSchema_issues d)
      /\ PaymentRequestSchema_issues d <> []).
Proof.
  pose proof (PaymentRequestSchema_issues_nil d) as Hnil.
  unfold PaymentRequestSchema_parse.
  split; [| split].
  - rewrite <- Hnil. destruct (PaymentRequestSchema_issues d); split;
      congruence.
  - intros v. destruct (PaymentRequestSchema_issues d); congruence.
  - intros e. destruct (PaymentRequestSchema_issues d) eqn:E; [discriminate |].
    intro H. injection H as <-. split; congruence.
Qed.

(** X15. A refused input is told every field that fails, and no other: the
    path of a field is among the paths of the issues exactly when the check
    of that field fails. *)
Theorem PaymentRequestSchema_reports_each_field (d : DokuPaymentRequest) :
  let paths := map issue_path (PaymentRequestSchema_issues d) in
  (In "orderId" paths <-> orderId d = "")
  /\ (In "amount" paths <-> positive (amount d) = false)
  /\ (In "customerName" paths <-> customerName d = "")
  /\ (In "customerEmail" paths <-> is_email (customerEmail d) = false)
  /\ (In "customerPhone" paths <-> customerPhone d = "")
  /\ (In "returnUrl" paths <-> is_url (returnUrl d) = false)
  /\ (In "expiredTime" paths
      <-> exists minutes, expiredTime d = Some minutes /\ positive minutes = false)
  /\ (forall p, In p paths ->
      In p ["orderId"; "amount"; "customerName"; "customerEmail"; "customerPhone";
            "returnUrl"; "expiredTime"]).
Proof.
  assert (Hpaths : forall p,
    In p (map issue_path (PaymentRequestSchema_issues d))
    <-> (p = "orderId" /\ orderId d = "")
        \/ (p = "amount" /\ positive (amount d) = false)
        \/ (p = "customerName" /\ customerName d = "")
        \/ (p = "customerEmail" /\ is_email (customerEmail d) = false)
        \/ (p = "customerPhone" /\ customerPhone d = "")
        \/ (p = "returnUrl" /\ is_url (returnUrl d) = false)
        \/ (p = "expiredTime"
            /\ exists minutes, expiredTime d = Some minutes /\ positive minutes = false)).
  { intro p. unfold PaymentRequestSchema_issues.
    rewrite !map_app, !in_app_iff, !string_min1_paths, number_positive_paths.
    assert (He : In p (map issue_path
                         (if is_email (customerEmail d) then []
                          else [mkIssue invalid_string "customerEmail"
                                  (Some "Invalid email address")]))
                 <-> p = "customerEmail" /\ is_email (customerEmail d) = false)
      by (destruct (is_email _); cbn; intuition congruence).
    assert (Hu : In p (map issue_path
                         (if is_url (returnUrl d) then []
                          else [mkIssue invalid_string "returnUrl"
                                  (Some "Invalid return URL")]))
                 <-> p = "returnUrl" /\ is_url (returnUrl d) = false)
      by (destruct (is_url _); cbn; intuition congruence).
    assert (Hx : In p (map issue_path
                         (optional (number_positive "expiredTime"
                                      "Expired time must be positive") (expiredTime d)))
                 <-> p = "expiredTime"
                     /\ exists minutes, expiredTime d = Some minutes
                                        /\ positive minutes = false).
    { destruct (expiredTime d) as [n |]; cbn [optional].
      - rewrite number_positive_paths. split.
        + intros [-> H]. eauto.
        + intros [-> (m & E & H)]. split; congruence.
      - cbn. split; [tauto | intros [_ (m & E & _)]; discriminate]. }
    rewrite He, Hu, Hx. tauto. }
  cbv zeta. repeat split.
  all: try (intro H; apply Hpaths in H;
            repeat destruct H as [H | H]; destruct H as [E H];
            first [discriminate E | exact H]).
  all: try (intro H; apply Hpaths; tauto).
  intros p H. apply Hpaths in H. cbn [In].
  repeat destruct H as [H | H]; destruct H as [-> _]; tauto.
Qed.

(** X16. The constructor accepts every configuration whose client id and
    secret key are strings that are not empty and whose flag is a boolean:
    the client holds the three values, and its base URL is the production
    host when the flag is true and the sandbox host when it is false. *)
Theorem constructor_accepts (id key : string) (prod : bool) :
  id <> "" -> key <> "" ->
  constructor {| in_clientId := Some (JStr id); in_secretKey := Some (JStr key);
                 in_isProduction := Some (JBool prod) |}
  = Normal {| config := {| clientId := id; secretKey := key; isProduction := prod |};
              baseUrl := if prod then "https://api.doku.com"
                         else "https://api-sandbox.doku.com" |}.
Proof.
  intros Hid Hkey.
  unfold constructor, ConfigSchema_parse, ConfigSchema_issues, any_string_min1,
    any_boolean, string_min1.
  cbn [in_clientId in_secretKey in_isProduction].
  rewrite !eqb_empty_false by assumption. reflexivity.
Qed.

(** X17. When the email format refuses the empty string, as zod's does, the
    guest id is never used: for every accepted input the customer id of the
    request body is the customer's email. *)
Theorem requestBody_customer_id_is_email {crypto : CryptoJS} {jsontext : JSONText}
    (d v : DokuPaymentRequest) (rid : string) :
  is_email "" = false ->
  PaymentRequestSchema_parse d = Normal v ->
  customer_id (customer (requestBody d v rid)) = customerEmail d.
Proof.
  intros Hempty Hparse.
  apply PaymentRequestSchema_parse_Normal in Hparse as [-> Hnil].
  apply PaymentRequestSchema_issues_nil in Hnil as (_ & _ & _ & He & _).
  cbn [requestBody customer customer_id].
  destruct (String.eqb_spec (customerEmail d) "") as [E | _]; [| reflexivity].
  rewrite E in He. congruence.
Qed.

End Schemas.

(* ===================================================================== *)
(** ** The type guards *)
(* ===================================================================== *)

Lemma service_id_is_true (code : string) (data : Json) :
  service_id_is code data = Normal true <-> service_id data = Normal (Some (JStr code)).
Proof.
  unfold service_id_is. destruct (service_id data) as [[[| | |s| |]|]|e];
    cbn [strict_equals]; split; intro H; try discriminate;
    try (injection H as H; discriminate).
  - injection H as H. apply String.eqb_eq in H. now subst.
  - injection H as ->. now rewrite String.eqb_refl.
Qed.

Lemma guards_are_codes :
  guards = map service_id_is service_codes.
Proof. reflexivity. Qed.

Lemma service_codes_NoDup : NoDup service_codes.
Proof.
  unfold service_codes.
  repeat (constructor; [cbn; intuition discriminate |]). constructor.
Qed.

(** X18. The guards exclude one another: when one of the seven says yes to
    a notification, each of the other six returns false for it. *)
Theorem guards_exclusive (data : Json) (i j : nat) (g g' : Json -> Completion bool) :
  nth_error guards i = Some g ->
  nth_error guards j = Some g' ->
  i <> j ->
  g data = Normal true ->
  g' data = Normal false.
Proof.
  rewrite guards_are_codes, !nth_error_map. intros Hi Hj Hij Hg.
  destruct (nth_error service_codes i) as [c |] eqn:Hc; [| discriminate].
  destruct (nth_error service_codes j) as [c' |] eqn:Hc'; [| discriminate].
  cbn [option_map] in Hi, Hj. injection Hi as <-. injection Hj as <-.
  assert (Hne : c' <> c).
  { intros ->. apply Hij.
    exact (proj1 (NoDup_nth_error service_codes) service_codes_NoDup i j
             ltac:(apply nth_error_Some; congruence) ltac:(congruence)). }
  apply service_id_is_true in Hg. unfold service_id_is. rewrite Hg.
  cbn [strict_equals]. f_equal. apply String.eqb_neq. congruence.
Qed.

(** X19. A guard looks at [service.id] and at nothing else. For an object
    whose [service] is an object with a string [id], the seven guards
    return, in order, whether the id is their code, whatever the other
    members are; none throws; and an id that is none of the seven codes
    makes all seven false. *)
Theorem guards_read_service_id
    (members service : list (string * Json)) (id : string) :
  lookup "service" members = Some (JObj service) ->
  lookup "id" service = Some (JStr id) ->
  map (fun g => g (JObj members)) guards
  = map (fun code => Normal (id =? code)%string) service_codes
  /\ (~ In id service_codes ->
      Forall (fun g => g (JObj members) = Normal false) guards).
Proof.
  intros Hservice Hid.
  assert (H : forall code, service_id_is code (JObj members)
                           = Normal (id =? code)%string).
  { intro code. unfold service_id_is, service_id.
    cbn [get_member member]. rewrite Hservice. cbn [get_of get_member member].
    now rewrite Hid. }
  split.
  - rewrite guards_are_codes, map_map. apply map_ext. exact H.
  - intro Hnot. rewrite guards_are_codes. apply Forall_map, Forall_forall.
    intros code Hin. rewrite H. f_equal. apply String.eqb_neq.
    intros ->. now apply Hnot.
Qed.

(** X20. A guard throws exactly when the notification is [null], or has no
    [service], or has a [service] that is [null]: on every other value each
    of the seven returns a boolean. *)
Theorem guards_throw_without_service (data : Json) :
  Forall (fun g =>
            (exists e, g data = Throw e)
            <-> data = JNull
                \/ member data "service" = None
                \/ member data "service" = Some JNull)
         guards.
Proof.
  rewrite guards_are_codes. apply Forall_map, Forall_forall. intros code _.
  unfold service_id_is, service_id.
  destruct data; cbn [get_member member];
    try (cbn [get_of]; split; [intros [e H]; discriminate H || tauto
                              | intros [H | [H | H]]; try discriminate H; eauto]).
  destruct (lookup "service" members) as [[| | | | |] |]; cbn [get_of get_member];
    split; try (intros [e H]; discriminate H);
    try (intros [H | [H | H]]; discriminate H); eauto.
Qed.

(* ===================================================================== *)
(** ** The theorems above on concrete runs *)
(* ===================================================================== *)

(** X3 on the payment with the email ["invalid-email"]. *)
Lemma createPayment_refuses_invalid_input_witness :
  PaymentRequestSchema_issues invalid_email_payment <> []
  /\ sent (snd (createPayment test_client invalid_email_payment test_uuid test_now
                  (mock [] network_error)))
     = sent (mock [] network_error).
Proof.
  assert (H : PaymentRequestSchema_issues invalid_email_payment <> [])
    by (vm_compute; discriminate).
  refine (conj H _).
  destruct (createPayment_refuses_invalid_input test_client invalid_email_payment
              test_uuid test_now (mock [] network_error) H)
    as (r & _ & _ & _ & _ & Hsent & _).
  exact Hsent.
Defined.

(** X4 on a provider that answers 400 with a message. *)
Lemma createPayment_provider_error_witness :
  PaymentRequestSchema_parse (test_payment "INV-FAIL") = Normal (test_payment "INV-FAIL")
  /\ (forall u o,
        remote (mock [Normal bad_request] network_error)
          (fetch_calls (mock [Normal bad_request] network_error)) u o
        = Normal bad_request)
  /\ ok bad_request = false
  /\ status bad_request < 500
  /\ fetch_calls (snd (createPayment test_client (test_payment "INV-FAIL") test_uuid
                         test_now (mock [Normal bad_request] network_error)))
     = 1%nat.
Proof.
  assert (H1 : PaymentRequestSchema_parse (test_payment "INV-FAIL")
               = Normal (test_payment "INV-FAIL")) by reflexivity.
  assert (H2 : forall u o,
             remote (mock [Normal bad_request] network_error)
               (fetch_calls (mock [Normal bad_request] network_error)) u o
             = Normal bad_request) by reflexivity.
  assert (H3 : ok bad_request = false) by reflexivity.
  assert (H4 : status bad_request < 500) by reflexivity.
  refine (conj H1 (conj H2 (conj H3 (conj H4 _)))).
  exact (proj1 (proj2
    (createPayment_provider_error test_client (test_payment "INV-FAIL") test_uuid
       test_now (mock [Normal bad_request] network_error) (test_payment "INV-FAIL")
       bad_request (JObj [("error", JObj [("message", JStr "Invalid Request")])])
       H1 H2 H3 H4 eq_refl ltac:(discriminate)))).
Defined.

(** X5 on a provider that answers 200 with the nested envelope. *)
Lemma createPayment_created_witness :
  PaymentRequestSchema_parse (test_payment "INV-123") = Normal (test_payment "INV-123")
  /\ ok created = true
  /\ fetch_calls (snd (createPayment test_client (test_payment "INV-123") test_uuid
                         test_now (mock [Normal created] network_error)))
     = 1%nat.
Proof.
  assert (H1 : PaymentRequestSchema_parse (test_payment "INV-123")
               = Normal (test_payment "INV-123")) by reflexivity.
  assert (H2 : ok created = true) by reflexivity.
  refine (conj H1 (conj H2 _)).
  exact (proj1 (proj2
    (createPayment_created test_client (test_payment "INV-123") test_uuid test_now
       (mock [Normal created] network_error) (test_payment "INV-123") created
       (payment_created "INV-123") H1 (fun _ _ => eq_refl) H2 eq_refl
       ltac:(discriminate)))).
Defined.

(** X6 on a provider that always answers 500. *)
Lemma createPayment_persistent_server_error_witness :
  PaymentRequestSchema_parse (test_payment "INV-500") = Normal (test_payment "INV-500")
  /\ ok server_error = false
  /\ 500 <= status server_error
  /\ fetch_calls (snd (createPayment test_client (test_payment "INV-500") test_uuid
                         test_now (mock [] (Normal server_error))))
     = 4%nat.
Proof.
  assert (H1 : PaymentRequestSchema_parse (test_payment "INV-500")
               = Normal (test_payment "INV-500")) by reflexivity.
  assert (H2 : ok server_error = false) by reflexivity.
  assert (H3 : 500 <= status server_error) by (cbn; lia).
  refine (conj H1 (conj H2 (conj H3 _))).
  exact (proj1 (proj2
    (createPayment_persistent_server_error test_client (test_payment "INV-500")
       test_uuid test_now (mock [] (Normal server_error)) (test_payment "INV-500")
       server_error (JObj []) H1
       (fun i _ _ => match i with O => eq_refl | S O => eq_refl | S (S _) => eq_refl end)
       H2 H3 eq_refl ltac:(discriminate)))).
Defined.

(** X7 on a provider that answers 200 with a body that is not JSON. *)
Lemma createPayment_unreadable_body_witness :
  PaymentRequestSchema_parse (test_payment "INV-123") = Normal (test_payment "INV-123")
  /\ retryable (Normal unreadable) = false
  /\ fst (createPayment test_client (test_payment "INV-123") test_uuid test_now
            (mock [Normal unreadable] network_error))
     = Normal (failure
                 (or_else
                    (error_message
                       (ErrorObject "SyntaxError" "Unexpected end of JSON input"))
                    (Some (JStr "Internal server error")))
                 (DetailsThrown
                    (ErrorObject "SyntaxError" "Unexpected end of JSON input"))).
Proof.
  assert (H1 : PaymentRequestSchema_parse (test_payment "INV-123")
               = Normal (test_payment "INV-123")) by reflexivity.
  assert (H2 : retryable (Normal unreadable) = false) by reflexivity.
  refine (conj H1 (conj H2 _)).
  exact (proj1
    (createPayment_unreadable_body test_client (test_payment "INV-123") test_uuid
       test_now (mock [Normal unreadable] network_error) (test_payment "INV-123")
       unreadable H1 (fun _ _ => eq_refl) H2)
    (ErrorObject "SyntaxError" "Unexpected end of JSON input") eq_refl).
Defined.

(** X8 on the test client. *)
Lemma generateHeaders_verify_witness :
  constructor test_config = Normal test_client
  /\ "req-123" <> "" /\ "2023-01-01T00:00:00Z" <> ""
  /\ validateSignature test_client "{}"
       (inbound_of (generateHeaders test_client "req-123" "2023-01-01T00:00:00Z"
                      "/api/callback" "{}"))
       "/api/callback" = true.
Proof.
  assert (H1 : constructor test_config = Normal test_client) by reflexivity.
  assert (H2 : "req-123" <> "") by discriminate.
  assert (H3 : "2023-01-01T00:00:00Z" <> "") by discriminate.
  refine (conj H1 (conj H2 (conj H3 _))).
  exact (proj1 (generateHeaders_verify test_config test_client "{}" "req-123"
                  "2023-01-01T00:00:00Z" "/api/callback" H1 H2 H3)).
Defined.

(** X9 on the signature of the repository's test. *)
Lemma validateSignature_sound_witness :
  validateSignature test_client "{}"
    {| signature := Some "HMACSHA256=v6cr8jGmRHv7ZE2/kGvIWseGYJfnD0/9kdFvF0jMVqE=";
       timestamp := Some "2023-01-01T00:00:00Z";
       requestId := Some "req-123";
       inbound_clientId := Some "TEST-CLIENT-ID" |} "/api/callback" = true
  /\ exists sig ts rid,
       {| signature := Some "HMACSHA256=v6cr8jGmRHv7ZE2/kGvIWseGYJfnD0/9kdFvF0jMVqE=";
          timestamp := Some "2023-01-01T00:00:00Z";
          requestId := Some "req-123";
          inbound_clientId := Some "TEST-CLIENT-ID" |}
       = {| signature := Some sig; timestamp := Some ts; requestId := Some rid;
            inbound_clientId := Some (clientId (config test_client)) |}
       /\ ts <> "" /\ rid <> "".
Proof.
  assert (H : validateSignature test_client "{}"
                {| signature :=
                     Some "HMACSHA256=v6cr8jGmRHv7ZE2/kGvIWseGYJfnD0/9kdFvF0jMVqE=";
                   timestamp := Some "2023-01-01T00:00:00Z";
                   requestId := Some "req-123";
                   inbound_clientId := Some "TEST-CLIENT-ID" |} "/api/callback" = true)
    by (vm_compute; reflexivity).
  refine (conj H _).
  destruct (validateSignature_sound test_client "{}" _ "/api/callback" H)
    as (sig & ts & rid & Hh & Hts & Hrid & _).
  exists sig, ts, rid. exact (conj Hh (conj Hts Hrid)).
Defined.

(** X10 on a target that carries a [Digest] line. *)
Lemma generateSignature_field_boundaries_witness :
  "abc" <> ""
  /\ generateSignature "id" "req" ("/path" ++ LF ++ "Digest:" ++ "abc")%string ""
       "key" "2023-01-01T00:00:00Z"
     = generateSignature "id" "req" "/path" "abc" "key" "2023-01-01T00:00:00Z".
Proof.
  assert (H : "abc" <> "") by discriminate.
  refine (conj H _).
  exact (proj1 (generateSignature_field_boundaries "id" "req" "/path" "abc" "key"
                  "2023-01-01T00:00:00Z" "" H)).
Defined.

(** X11 on the test client. *)
Lemma verifyNotificationSignature_rejects_valid_witness :
  constructor test_config = Normal test_client
  /\ "req-123" <> "" /\ "2023-01-01T00:00:00Z" <> ""
  /\ verifyNotificationSignature test_client "{}"
       (Some (h_Signature (generateHeaders test_client "req-123"
                             "2023-01-01T00:00:00Z" "/api/callback" "{}")))
       (Some "2023-01-01T00:00:00Z") (Some "req-123") = false.
Proof.
  assert (H1 : constructor test_config = Normal test_client) by reflexivity.
  assert (H2 : "req-123" <> "") by discriminate.
  assert (H3 : "2023-01-01T00:00:00Z" <> "") by discriminate.
  refine (conj H1 (conj H2 (conj H3 _))).
  exact (proj1 (proj2
    (verifyNotificationSignature_rejects_valid test_config test_client "{}" "req-123"
       "2023-01-01T00:00:00Z" "/api/callback" H1 H2 H3))).
Defined.

(** X12 on the test client and the test payment. *)
Lemma createPayment_requests_witness :
  constructor test_config = Normal test_client
  /\ PaymentRequestSchema_parse (test_payment "INV-123") = Normal (test_payment "INV-123")
  /\ exists k url options,
       (1 <= k <= 4)%nat
       /\ url = "https://api-sandbox.doku.com/checkout/v1/payment"
       /\ h_Request_Timestamp (req_headers options) = "2023-01-01T00:00:00Z"
       /\ sent (snd (createPayment test_client (test_payment "INV-123") test_uuid test_now
                       (mock [] network_error)))
          = sent (mock [] network_error) ++ repeat (url, options) k.
Proof.
  assert (H1 : constructor test_config = Normal test_client) by reflexivity.
  assert (H2 : PaymentRequestSchema_parse (test_payment "INV-123")
               = Normal (test_payment "INV-123")) by reflexivity.
  refine (conj H1 (conj H2 _)).
  destruct (createPayment_requests test_config test_client (test_payment "INV-123")
              (test_payment "INV-123") test_uuid test_now (mock [] network_error) H1 H2)
    as (k & Hk & Hsent).
  refine (ex_intro _ k (ex_intro _ _ (ex_intro _ _
            (conj Hk (conj _ (conj _ Hsent)))))); reflexivity.
Defined.

(** X13 on the test client and the test payment. *)
Lemma createPayment_requests_verify_witness :
  constructor test_config = Normal test_client
  /\ PaymentRequestSchema_parse (test_payment "INV-123") = Normal (test_payment "INV-123")
  /\ test_uuid <> ""
  /\ exists k url options,
       (1 <= k <= 4)%nat
       /\ sent (snd (createPayment test_client (test_payment "INV-123") test_uuid test_now
                       (mock [] network_error)))
          = sent (mock [] network_error) ++ repeat (url, options) k
       /\ validateSignature test_client (req_body options)
            (inbound_of (req_headers options)) "/checkout/v1/payment" = true.
Proof.
  assert (H1 : constructor test_config = Normal test_client) by reflexivity.
  assert (H2 : PaymentRequestSchema_parse (test_payment "INV-123")
               = Normal (test_payment "INV-123")) by reflexivity.
  assert (H3 : test_uuid <> "") by discriminate.
  refine (conj H1 (conj H2 (conj H3 _))).
  destruct (createPayment_requests_verify test_config test_client
              (test_payment "INV-123") (test_payment "INV-123") test_uuid test_now
              (mock [] network_error) H1 H2 H3)
    as (k & url & options & Hk & Hsent & _ & Hvalid).
  exists k, url, options. exact (conj Hk (conj Hsent Hvalid)).
Defined.

(** X16 on the test configuration. *)
Lemma constructor_accepts_witness :
  "TEST-CLIENT-ID" <> "" /\ "TEST-SECRET-KEY" <> ""
  /\ constructor test_config = Normal test_client.
Proof.
  assert (H1 : "TEST-CLIENT-ID" <> "") by discriminate.
  assert (H2 : "TEST-SECRET-KEY" <> "") by discriminate.
  refine (conj H1 (conj H2 _)).
  exact (constructor_accepts "TEST-CLIENT-ID" "TEST-SECRET-KEY" false H1 H2).
Defined.

(** X17 on the test payment. *)
Lemma requestBody_customer_id_is_email_witness :
  is_email "" = false
  /\ PaymentRequestSchema_parse (test_payment "INV-123") = Normal (test_payment "INV-123")
  /\ customer_id
       (customer (requestBody (test_payment "INV-123") (test_payment "INV-123") test_uuid))
     = "john@example.com".
Proof.
  assert (H1 : is_email "" = false) by reflexivity.
  assert (H2 : PaymentRequestSchema_parse (test_payment "INV-123")
               = Normal (test_payment "INV-123")) by reflexivity.
  refine (conj H1 (conj H2 _)).
  exact (requestBody_customer_id_is_email (test_payment "INV-123")
           (test_payment "INV-123") test_uuid H1 H2).
Defined.

(** X18 on a notification of a virtual account payment. *)
Lemma guards_exclusive_witness :
  nth_error guards 0 = Some isVirtualAccountNotification
  /\ nth_error guards 2 = Some isQrisNotification
  /\ isVirtualAccountNotification virtual_account_paid = Normal true
  /\ isQrisNotification virtual_account_paid = Normal false.
Proof.
  assert (H1 : nth_error guards 0 = Some isVirtualAccountNotification) by reflexivity.
  assert (H2 : nth_error guards 2 = Some isQrisNotification) by reflexivity.
  assert (H3 : isVirtualAccountNotification virtual_account_paid = Normal true)
    by reflexivity.
  refine (conj H1 (conj H2 (conj H3 _))).
  exact (guards_exclusive virtual_account_paid 0 2 isVirtualAccountNotification
           isQrisNotification H1 H2 ltac:(discriminate) H3).
Defined.

(** X19 on the same notification, and on one without its payload. *)
Lemma guards_read_service_id_witness :
  lookup "service" [("service", JObj [("id", JStr "VIRTUAL_ACCOUNT")])]
  = Some (JObj [("id", JStr "VIRTUAL_ACCOUNT")])
  /\ lookup "id" [("id", JStr "VIRTUAL_ACCOUNT")] = Some (JStr "VIRTUAL_ACCOUNT")
  /\ map (fun g => g (JObj [("service", JObj [("id", JStr "VIRTUAL_ACCOUNT")])])) guards
     = map (fun code => Normal ("VIRTUAL_ACCOUNT" =? code)%string) service_codes.
Proof.
  assert (H1 : lookup "service" [("service", JObj [("id", JStr "VIRTUAL_ACCOUNT")])]
               = Some (JObj [("id", JStr "VIRTUAL_ACCOUNT")])) by reflexivity.
  assert (H2 : lookup "id" [("id", JStr "VIRTUAL_ACCOUNT")]
               = Some (JStr "VIRTUAL_ACCOUNT")) by reflexivity.
  refine (conj H1 (conj H2 _)).
  exact (proj1 (guards_read_service_id _ _ _ H1 H2)).
Defined.

(* ===================================================================== *)
(** ** The verifier when crypto-js throws *)
(* ===================================================================== *)

(** A text whose first character is not the second byte of a surrogate can
    follow any text without making one. *)
Lemma lone_surrogate_app (a b : string) :
  match b with
  | String c _ => surrogate_next c = false
  | EmptyString => True
  end ->
  lone_surrogate (a ++ b) = lone_surrogate a || lone_surrogate b.
Proof.
  intro Hb. induction a as [|x a IH]; [reflexivity |].
  cbn [append lone_surrogate]. rewrite IH.
  destruct a as [|y a]; cbn [append].
  - destruct b as [|c b]; [| rewrite Hb];
      now rewrite andb_false_r, orb_false_l.
  - now rewrite orb_assoc.
Qed.

(** The canonical string holds a lone surrogate exactly when a field does. *)
Lemma lone_surrogate_componentSignature {crypto : CryptoJS} (c r p d t : string) :
  lone_surrogate (componentSignature c r p d t)
  = lone_surrogate c || lone_surrogate r || lone_surrogate t
    || lone_surrogate p || lone_surrogate d.
Proof.
  rewrite componentSignature_flat.
  change (lone_surrogate ("Client-Id:" ++ c ++ LF ++ "Request-Id:" ++ r ++ LF
                          ++ "Request-Timestamp:" ++ t ++ LF
                          ++ "Request-Target:" ++ p ++ digest_line d))
    with (lone_surrogate (c ++ LF ++ "Request-Id:" ++ r ++ LF
                          ++ "Request-Timestamp:" ++ t ++ LF
                          ++ "Request-Target:" ++ p ++ digest_line d)).
  rewrite lone_surrogate_app by reflexivity.
  change (lone_surrogate (LF ++ "Request-Id:" ++ r ++ LF
                          ++ "Request-Timestamp:" ++ t ++ LF
                          ++ "Request-Target:" ++ p ++ digest_line d))
    with (lone_surrogate (r ++ LF ++ "Request-Timestamp:" ++ t ++ LF
                          ++ "Request-Target:" ++ p ++ digest_line d)).
  rewrite lone_surrogate_app by reflexivity.
  change (lone_surrogate (LF ++ "Request-Timestamp:" ++ t ++ LF
                          ++ "Request-Target:" ++ p ++ digest_line d))
    with (lone_surrogate (t ++ LF ++ "Request-Target:" ++ p ++ digest_line d)).
  rewrite lone_surrogate_app by reflexivity.
  change (lone_surrogate (LF ++ "Request-Target:" ++ p ++ digest_line d))
    with (lone_surrogate (p ++ digest_line d)).
  unfold digest_line. destruct (String.eqb_spec d "") as [-> | _].
  - rewrite lone_surrogate_app by exact I. cbn [lone_surrogate].
    now rewrite !orb_false_r, !orb_assoc.
  - rewrite lone_surrogate_app by reflexivity.
    change (lone_surrogate (LF ++ "Digest:" ++ d)) with (lone_surrogate d).
    now rewrite !orb_assoc.
Qed.

Section ThrowingVerifier.
Context {crypto : CryptoJS}.

(** C3, as the code has it. [validateSignature] returns false when one of
    the four header values is absent or empty, and false when the inbound
    client id is not the configured one: both are decided before anything
    is hashed, so on every input, also one with a lone surrogate. On four
    non-empty values with the configured client id, what is hashed is the
    body, then the canonical string under the secret key. When none of the
    three holds a lone surrogate, the verifier returns a boolean, true
    exactly when the signature computed is the received string, character
    for character. When one of them does, it throws the [URIError] of
    crypto-js. The canonical string holds a lone surrogate exactly when the
    client id, the request id, the timestamp, the target or the digest
    does. *)
Theorem validateSignature_failure_policy
    (self : DokuClient) (body : string) (headers : InboundHeaders)
    (requestTarget : string) :
  (truthy_string (signature headers) = false
   \/ truthy_string (timestamp headers) = false
   \/ truthy_string (requestId headers) = false
   \/ truthy_string (inbound_clientId headers) = false ->
   Throwing.validateSignature self body headers requestTarget = Normal false)
  /\ (inbound_clientId headers <> Some (clientId (config self)) ->
      Throwing.validateSignature self body headers requestTarget = Normal false)
  /\ (forall sig ts rid,
      headers = {| signature := Some sig; timestamp := Some ts;
                   requestId := Some rid;
                   inbound_clientId := Some (clientId (config self)) |} ->
      sig <> "" -> ts <> "" -> rid <> "" -> clientId (config self) <> "" ->
      (lone_surrogate body
       || lone_surrogate (secretKey (config self))
       || lone_surrogate (componentSignature (clientId (config self)) rid
                            requestTarget (generateDigest body) ts) = false ->
       Throwing.validateSignature self body headers requestTarget
       = Normal (validateSignature self body headers requestTarget)
       /\ (validateSignature self body headers requestTarget = true
           <-> generateSignature (clientId (config self)) rid requestTarget
                 (generateDigest body) (secretKey (config self)) ts = sig))
      /\ (lone_surrogate body
          || lone_surrogate (secretKey (config self))
          || lone_surrogate (componentSignature (clientId (config self)) rid
                               requestTarget (generateDigest body) ts) = true ->
          Throwing.validateSignature self body headers requestTarget
          = Throw Throwing.URIError))
  /\ (forall c r p d t,
      lone_surrogate (componentSignature c r p d t)
      = lone_surrogate c || lone_surrogate r || lone_surrogate t
        || lone_surrogate p || lone_surrogate d).
Proof.
  split; [| split; [| split]].
  - unfold Throwing.validateSignature. destruct headers as [sig ts rid cid].
    cbn [signature timestamp requestId inbound_clientId].
    destruct sig as [sig|], ts as [ts|], rid as [rid|], cid as [cid|];
      try reflexivity.
    cbn [truthy_string]. intros [H | [H | [H | H]]];
      apply negb_false_iff in H; rewrite H; cbn [orb];
      rewrite ?orb_true_r; reflexivity.
  - unfold Throwing.validateSignature. destruct headers as [sig ts rid cid].
    cbn [signature timestamp requestId inbound_clientId]. intro Hcid.
    destruct sig as [sig|], ts as [ts|], rid as [rid|], cid as [cid|];
      try reflexivity.
    destruct (_ || _ || _ || _); [reflexivity |].
    destruct (String.eqb_spec cid (clientId (config self))) as [-> | _];
      [congruence | reflexivity].
  - intros sig ts rid -> Hsig Hts Hrid Hcid.
    rewrite (validateSignature_compares self body sig ts rid requestTarget)
      by assumption.
    unfold Throwing.validateSignature.
    cbn [signature timestamp requestId inbound_clientId].
    rewrite !eqb_empty_false by assumption. cbn [orb].
    rewrite String.eqb_refl. cbn [negb].
    unfold Throwing.generateDigest, Throwing.generateSignature,
      Throwing.SHA256_call, Throwing.HmacSHA256_call, Throwing.Utf8_parse.
    fold (generateDigest body).
    destruct (lone_surrogate body); cbn [orb].
    + split; [discriminate | reflexivity].
    + destruct (lone_surrogate (secretKey (config self))); cbn [orb].
      * split; [discriminate | reflexivity].
      * destruct (lone_surrogate (componentSignature _ _ _ _ _)).
        -- split; [discriminate | reflexivity].
        -- split; [| discriminate]. intros _.
           split; [reflexivity | apply String.eqb_eq].
  - apply lone_surrogate_componentSignature.
Qed.

End ThrowingVerifier.

(** C3 fails where it says the verifier never throws: on a body that is a
    lone surrogate, with four header values that pass both checks, hashing
    the body throws the [URIError]. *)
Lemma validateSignature_throws_on_lone_surrogate :
  Throwing.validateSignature test_client lone_D800
    {| signature := Some "HMACSHA256=v6cr8jGmRHv7ZE2/kGvIWseGYJfnD0/9kdFvF0jMVqE=";
       timestamp := Some "2023-01-01T00:00:00Z";
       requestId := Some "req-123";
       inbound_clientId := Some "TEST-CLIENT-ID" |} "/api/callback"
  = Throw (ErrorObject "URIError" "URI malformed").
Proof. reflexivity. Qed.

(** The same call on the body [{}] of the repository's test returns. *)
Example validateSignature_returns_on_test_body :
  Throwing.validateSignature test_client "{}"
    {| signature := Some "HMACSHA256=v6cr8jGmRHv7ZE2/kGvIWseGYJfnD0/9kdFvF0jMVqE=";
       timestamp := Some "2023-01-01T00:00:00Z";
       requestId := Some "req-123";
       inbound_clientId := Some "TEST-CLIENT-ID" |} "/api/callback"
  = Normal true.
Proof. vm_compute. reflexivity. Qed.
